(** * ev-backend-common: the RabbitMQ [Queue] adapter

    A shallow embedding of
    [lib/src/port/adapter/messaging/rabbitmq/Queue.js] (and of the
    TypeScript it is compiled from).  Promises are run to their
    settlement: a computation is a function on a [World] that records
    every call made on the broker transport, every event emitted on a
    queue instance and every line handed to [debugError]. *)

From Stdlib Require Import String List Bool NArith Lia.
Import ListNotations.
Open Scope string_scope.

(** ** JavaScript values that travel as errors *)

Module Js.

(** What a promise is rejected with, or what a [throw] carries: a plain
    string, or an [Error] object with its message. *)
Inductive Value : Type :=
| Str (s : string)
| Error (message : string).

(** [String(v)], as the [+] of a string and a value computes it.
    [Error.prototype.toString] gives the name alone when the message is
    empty. *)
Definition toString (v : Value) : string :=
  match v with
  | Str s => s
  | Error message =>
      if String.eqb message EmptyString then "Error"
      else "Error: " ++ message
  end.

(** [s + v] *)
Definition plus (s : string) (v : Value) : string := s ++ toString v.

(** How a call or an awaited promise ends. *)
Inductive Outcome (A : Type) : Type :=
| Fulfilled (a : A)
| Thrown (e : Value).
Arguments Fulfilled {A} a.
Arguments Thrown {A} e.

(** How a promise built with [new Promise((resolve, reject) => ...)]
    settles. *)
Inductive Settled (A : Type) : Type :=
| Resolved (a : A)
| Rejected (reason : Value).
Arguments Resolved {A} a.
Arguments Rejected {A} reason.

(** [Promise.all]: the values in order when every promise is fulfilled,
    otherwise the first rejection.  The promises are replies on one AMQP
    channel, which settle in the order of the requests. *)
Fixpoint Promise_all {A : Type} (ps : list (Outcome A)) : Outcome (list A) :=
  match ps with
  | [] => Fulfilled []
  | Fulfilled a :: rest =>
      match Promise_all rest with
      | Fulfilled l => Fulfilled (a :: l)
      | Thrown e => Thrown e
      end
  | Thrown e :: _ => Thrown e
  end.

End Js.
Import Js.

Infix "+++" := Js.plus (at level 60, right associativity).

(** ** Collaborators *)

(** [Constant]: the catalogue of message identifiers.  Its file is not part
    of the sources at hand, so the texts are fields of a record that every
    definition takes as a parameter. *)
Record Constant : Type := {
  INDIVIDUAL_SUBSCRIBER_MUST_HAS_NAME : string;
  QUEUE_BUILD_THROWS_ERROR : string;
  FAILED_ASSERT_QUEUE : string;
  FAILED_BINDING_QUEUE_AND_EXCHANGE : string;
  PROMISE_ALL_FAILED_TO_BIND_QUEUE_TO_EXCHANGE : string;
  MESSAGE_CONSUMER_ERROR_EVENT_NAME : string;
  CHANNEL_CONSUME_ERROR : string
}.

Record ConnectionSetting : Type := {
  host : string;
  port : N;
  username : string;
  password : string;
  vhost : string
}.

(** An [Exchange] is read through [name()] only; its channel is the one
    the calls of a queue built on it are recorded on. *)
Record Exchange : Type := {
  exchange_name : string
}.

Record Message : Type := {
  content : string;
  deliveryTag : N
}.

(** The options object of [assertQueue]. *)
Record QueueOptions : Type := {
  durable : bool;
  exclusive : bool;
  autoDelete : bool
}.

(** [Replies.AssertQueue] *)
Record AssertQueueReply : Type := {
  queue : string;
  messageCount : N;
  consumerCount : N
}.

(** [Options.Consume] *)
Record ConsumeOptions : Type := {
  noAck : bool
}.

(** A JavaScript [name] argument: [None] is [null] or [undefined]. *)
Definition Name : Type := option string.

(** ** The world *)

(** Calls that reach the broker transport, with their arguments as
    passed.  [CallAck] carries the one argument [Queue.ack] passes. *)
Inductive Call : Type :=
| CallBuild (connectionSetting : option ConnectionSetting)
            (brokerChannel : option Exchange) (name : Name)
| CallAssertQueue (name : Name) (options : QueueOptions)
| CallBindQueue (queueName : Name) (source : string) (pattern : string)
| CallConsume (queueName : Name) (options : option ConsumeOptions)
| CallAck (message : Message) (allUpTo : option bool)
| CallNack (message : Message) (allUpTo : bool) (requeue : bool)
| CallPrefetch (count : N).

Record World : Type := {
  trace : list Call;                      (* oldest call first *)
  emitted : list (string * Js.Value);     (* [this.emit(event, e)] *)
  debug_log : list (list Js.Value)        (* arguments of [debugError] *)
}.

Definition empty_world : World :=
  {| trace := []; emitted := []; debug_log := [] |}.

(** A transport double: what each call is answered with, given the calls
    made before it. *)
Record Transport : Type := {
  build_reply :
    list Call -> option ConnectionSetting -> option Exchange -> Name ->
    Outcome unit;
  assertQueue_reply :
    list Call -> Name -> QueueOptions -> Outcome AssertQueueReply;
  bindQueue_reply :
    list Call -> Name -> string -> string -> Outcome unit;
  consume_reply :
    list Call -> Name -> option ConsumeOptions -> Outcome unit
}.

(** Everything the adapter is run against. *)
Record Env : Type := {
  constant : Constant;
  transport : Transport;
  (* the durability flag of a channel object before [setDurable] *)
  initial_isDurable : bool
}.

(** ** Computations *)

Definition M (A : Type) : Type := World -> A * World.

Definition ret {A : Type} (a : A) : M A := fun w => (a, w).

Definition bind {A B : Type} (m : M A) (k : A -> M B) : M B :=
  fun w => let (a, w') := m w in k a w'.

Declare Scope js_scope.
Delimit Scope js_scope with js.
Notation "x <- m ;; k" := (bind m (fun x => k))
  (at level 61, m at next level, right associativity) : js_scope.
Notation "m ;; k" := (bind m (fun _ => k))
  (at level 61, right associativity) : js_scope.
Open Scope js_scope.

Definition record_call (c : Call) : M unit :=
  fun w => (tt, {| trace := trace w ++ [c];
                   emitted := emitted w;
                   debug_log := debug_log w |}).

Definition history : M (list Call) := fun w => (trace w, w).

Definition debugError (args : list Js.Value) : M unit :=
  fun w => (tt, {| trace := trace w;
                   emitted := emitted w;
                   debug_log := debug_log w ++ [args] |}).

(** [array.map(f)] for an [f] with effects. *)
Fixpoint mapM {A B : Type} (f : A -> M B) (l : list A) : M (list B) :=
  match l with
  | [] => ret []
  | a :: rest =>
      b <- f a ;;
      bs <- mapM f rest ;;
      ret (b :: bs)
  end.

(** ** BrokerChannel *)

Module BrokerChannel.

(** Modelled from the spec: [BrokerChannel.js] is not among the sources.
    The spec gives the object a name that may be empty until the broker
    assigns one, a durability flag, and one of two ways to own a channel:
    its own connection opened from a [ConnectionSetting], or the channel
    of a peer it reuses. *)
Record t : Type := {
  connectionSetting : option ConnectionSetting;
  brokerChannel : option Exchange;
  name : Name;
  isDurable : bool
}.

(** Modelled from the spec: the constructor called by [super(...)], which
    keeps what it is given. *)
Definition new (E : Env) (connectionSetting : option ConnectionSetting)
    (name : Name) (brokerChannel : option Exchange) : t :=
  {| connectionSetting := connectionSetting;
     brokerChannel := brokerChannel;
     name := name;
     isDurable := initial_isDurable E |}.

(** Modelled from the spec: the accessors [setName] and [setDurable]. *)
Definition setName (this : t) (name' : string) : t :=
  {| connectionSetting := connectionSetting this;
     brokerChannel := brokerChannel this;
     name := Some name';
     isDurable := isDurable this |}.

Definition setDurable (this : t) (isDurable' : bool) : t :=
  {| connectionSetting := connectionSetting this;
     brokerChannel := brokerChannel this;
     name := name this;
     isDurable := isDurable' |}.

(** Modelled from the spec: [build()] opens a connection and a channel, or
    wraps the channel of the peer, and fails when opening fails.  Here it
    is one call on the transport, answered by the double. *)
Definition build (E : Env) (this : t) : M (Outcome unit) :=
  h <- history ;;
  record_call (CallBuild (connectionSetting this) (brokerChannel this)
                         (name this)) ;;
  ret (build_reply (transport E) h (connectionSetting this)
                   (brokerChannel this) (name this)).

(** Modelled from the spec: [emit], of the event emitter a channel object
    is; the event and its payload reach the observers of the instance. *)
Definition emit (this : t) (event : string) (e : Js.Value) : M unit :=
  fun w => (tt, {| trace := trace w;
                   emitted := emitted w ++ [(event, e)];
                   debug_log := debug_log w |}).

End BrokerChannel.

(** ** The channel handle, [this.channel()] *)

Module Channel.

Definition assertQueue (E : Env) (name : Name) (options : QueueOptions)
  : M (Outcome AssertQueueReply) :=
  h <- history ;;
  record_call (CallAssertQueue name options) ;;
  ret (assertQueue_reply (transport E) h name options).

Definition bindQueue (E : Env) (queueName : Name) (source pattern : string)
  : M (Outcome unit) :=
  h <- history ;;
  record_call (CallBindQueue queueName source pattern) ;;
  ret (bindQueue_reply (transport E) h queueName source pattern).

Definition consume (E : Env) (queueName : Name)
    (options : option ConsumeOptions) : M (Outcome unit) :=
  h <- history ;;
  record_call (CallConsume queueName options) ;;
  ret (consume_reply (transport E) h queueName options).

Definition ack (message : Message) (allUpTo : option bool) : M unit :=
  record_call (CallAck message allUpTo).

Definition nack (message : Message) (allUpTo requeue : bool) : M unit :=
  record_call (CallNack message allUpTo requeue).

Definition prefetch (count : N) : M unit :=
  record_call (CallPrefetch count).

(** What the transport makes of the [allUpTo] argument of [ack]: a missing
    argument is [undefined], which is falsy. *)
Definition multiple (allUpTo : option bool) : bool :=
  match allUpTo with
  | Some b => b
  | None => false
  end.

(** The dispatch of deliveries to the callback registered by [consume]:
    one invocation per delivery, in order; an exception that leaves the
    callback reaches the transport and ends the dispatch. *)
Fixpoint deliver (callback : Message -> M (Outcome unit))
    (deliveries : list Message) : M (Outcome unit) :=
  match deliveries with
  | [] => ret (Fulfilled tt)
  | msg :: rest =>
      r <- callback msg ;;
      match r with
      | Fulfilled _ => deliver callback rest
      | Thrown e => ret (Thrown e)
      end
  end.

End Channel.

(** ** MessageListener *)

(** The application's listener: two methods that may do anything to the
    world and may throw.  [handleMessage] is handed the caller's [ack]
    callback. *)
Record MessageListener : Type := {
  setCurrentMessage : Message -> M (Outcome unit);
  handleMessage : Message -> (Message -> M unit) -> M (Outcome unit)
}.

(** ** Queue *)

Module Queue.

(** [class Queue extends BrokerChannel]: no field of its own. *)
Definition t : Type := BrokerChannel.t.

(** A parameter with a default value, [p = d]. *)
Definition default {A : Type} (d : A) (p : option A) : A :=
  match p with
  | Some a => a
  | None => d
  end.

(** The test [name == null || name == ''], the empty string written with
    either quote. *)
Definition name_is_null_or_empty (name : Name) : bool :=
  match name with
  | None => true
  | Some s => String.eqb s EmptyString
  end.

Section WithEnv.

Variable E : Env.
Let K : Constant := constant E.

(** [constructor(connectionSetting, brokerChannel, name)] *)
Definition new (connectionSetting : option ConnectionSetting)
    (brokerChannel : option Exchange) (name : Name) : t :=
  match connectionSetting with
  | Some _ => BrokerChannel.new E connectionSetting name None
  | None => BrokerChannel.new E None name brokerChannel
  end.

(** [constructQueueAssertion(isDurable, isExclusive, isAutoDeleted)]; the
    object is returned as the call leaves it, next to how the promise
    settles. *)
Definition constructQueueAssertion (this : t)
    (isDurable isExclusive isAutoDeleted : bool) : M (t * Outcome unit) :=
  let this := BrokerChannel.setDurable this isDurable in
  r <- Channel.assertQueue E (BrokerChannel.name this)
         {| durable := isDurable;
            exclusive := isExclusive;
            autoDelete := isAutoDeleted |} ;;
  match r with
  | Fulfilled queueReply =>
      ret (BrokerChannel.setName this (queue queueReply), Fulfilled tt)
  | Thrown e =>
      ret (this, Thrown (Js.Error (FAILED_ASSERT_QUEUE K +++ e)))
  end.

Definition customInstanceUsingConnectionSetting
    (connectionSetting : ConnectionSetting) (name : Name)
    (isDurable isExclusive isAutoDeleted : option bool) : M (Settled t) :=
  let isDurable := default true isDurable in
  let isExclusive := default false isExclusive in
  let isAutoDeleted := default false isAutoDeleted in
  if name_is_null_or_empty name then
    ret (Rejected (Str (INDIVIDUAL_SUBSCRIBER_MUST_HAS_NAME K)))
  else
    let queue := new (Some connectionSetting) None name in
    b <- BrokerChannel.build E queue ;;
    match b with
    | Fulfilled _ =>
        r <- constructQueueAssertion queue isDurable isExclusive
               isAutoDeleted ;;
        let (queue, a) := r in
        match a with
        | Fulfilled _ => ret (Resolved queue)
        | Thrown e =>
            debugError [Str (FAILED_BINDING_QUEUE_AND_EXCHANGE K +++ e)] ;;
            ret (Rejected (Str (FAILED_BINDING_QUEUE_AND_EXCHANGE K +++ e)))
        end
    | Thrown e =>
        debugError [Str (QUEUE_BUILD_THROWS_ERROR K +++ e)] ;;
        ret (Rejected (Str (QUEUE_BUILD_THROWS_ERROR K +++ e)))
    end.

(** [routingKeys.map(routingKey => queue.channel().bindQueue(queue.name(),
    exchange.name(), routingKey))]: every bind is issued before any reply
    is looked at. *)
Definition bindEach (queue : t) (exchange : Exchange)
    (routingKeys : list string) : M (list (Outcome unit)) :=
  mapM (fun routingKey =>
          Channel.bindQueue E (BrokerChannel.name queue)
            (exchange_name exchange) routingKey)
       routingKeys.

Definition customInstanceUsingExchange
    (exchange : Exchange) (name : Name) (routingKeys : option (list string))
    (isDurable isExclusive isAutoDeleted : option bool) : M (Settled t) :=
  let routingKeys := default [] routingKeys in
  let isDurable := default true isDurable in
  let isExclusive := default false isExclusive in
  let isAutoDeleted := default false isAutoDeleted in
  if name_is_null_or_empty name then
    ret (Rejected (Str (INDIVIDUAL_SUBSCRIBER_MUST_HAS_NAME K)))
  else
    let queue := new None (Some exchange) name in
    b <- BrokerChannel.build E queue ;;
    match b with
    | Fulfilled _ =>
        r <- constructQueueAssertion queue isDurable isExclusive
               isAutoDeleted ;;
        let (queue, a) := r in
        match a with
        | Fulfilled _ =>
            binds <- bindEach queue exchange routingKeys ;;
            match Promise_all binds with
            | Fulfilled _ => ret (Resolved queue)
            | Thrown e =>
                ret (Rejected (Str (FAILED_BINDING_QUEUE_AND_EXCHANGE K +++ e)))
            end
        | Thrown e =>
            debugError
              [Str (PROMISE_ALL_FAILED_TO_BIND_QUEUE_TO_EXCHANGE K +++ e)] ;;
            ret (Rejected (Str (FAILED_BINDING_QUEUE_AND_EXCHANGE K +++ e)))
        end
    | Thrown e =>
        ret (Rejected (Str (QUEUE_BUILD_THROWS_ERROR K +++ e)))
    end.

Definition durableInstance
    (connectionSetting : ConnectionSetting) (name : Name) : M (Settled t) :=
  if name_is_null_or_empty name then
    ret (Rejected (Str (INDIVIDUAL_SUBSCRIBER_MUST_HAS_NAME K)))
  else
    let queue := new (Some connectionSetting) None name in
    b <- BrokerChannel.build E queue ;;
    match b with
    | Fulfilled _ =>
        r <- constructQueueAssertion queue true false false ;;
        let (queue, a) := r in
        match a with
        | Fulfilled _ => ret (Resolved queue)
        | Thrown e =>
            debugError [Str (FAILED_ASSERT_QUEUE K +++ e)] ;;
            ret (Rejected (Str (FAILED_ASSERT_QUEUE K +++ e)))
        end
    | Thrown e =>
        debugError [Str (QUEUE_BUILD_THROWS_ERROR K +++ e)] ;;
        ret (Rejected (Str (QUEUE_BUILD_THROWS_ERROR K +++ e)))
    end.

Definition durableExclusiveInstance
    (connectionSetting : ConnectionSetting) (name : Name) : M (Settled t) :=
  if name_is_null_or_empty name then
    ret (Rejected (Str (INDIVIDUAL_SUBSCRIBER_MUST_HAS_NAME K)))
  else
    let queue := new (Some connectionSetting) None name in
    b <- BrokerChannel.build E queue ;;
    match b with
    | Fulfilled _ =>
        r <- constructQueueAssertion queue true true false ;;
        let (queue, a) := r in
        match a with
        | Fulfilled _ => ret (Resolved queue)
        | Thrown e =>
            debugError [Str (FAILED_ASSERT_QUEUE K +++ e)] ;;
            ret (Rejected (Str (FAILED_ASSERT_QUEUE K +++ e)))
        end
    | Thrown e =>
        debugError [Str (QUEUE_BUILD_THROWS_ERROR K +++ e)] ;;
        ret (Rejected (Str (QUEUE_BUILD_THROWS_ERROR K +++ e)))
    end.

Definition durableNonExclusiveNotAutoDeletedInstance
    (connectionSetting : ConnectionSetting) (name : Name) : M (Settled t) :=
  if name_is_null_or_empty name then
    ret (Rejected (Str (INDIVIDUAL_SUBSCRIBER_MUST_HAS_NAME K)))
  else
    let queue := new (Some connectionSetting) None name in
    b <- BrokerChannel.build E queue ;;
    match b with
    | Fulfilled _ =>
        r <- constructQueueAssertion queue true false false ;;
        let (queue, a) := r in
        match a with
        | Fulfilled _ => ret (Resolved queue)
        | Thrown e =>
            debugError [Str (FAILED_ASSERT_QUEUE K +++ e)] ;;
            ret (Rejected (Str (FAILED_ASSERT_QUEUE K +++ e)))
        end
    | Thrown e =>
        ret (Rejected (Str (QUEUE_BUILD_THROWS_ERROR K +++ e)))
    end.

Definition individualExchangeSubscriberInstance
    (exchange : Exchange) (name : Name) (routingKeys : option (list string))
  : M (Settled t) :=
  let routingKeys := default [] routingKeys in
  if name_is_null_or_empty name then
    ret (Rejected (Str (INDIVIDUAL_SUBSCRIBER_MUST_HAS_NAME K)))
  else
    let queue := new None (Some exchange) name in
    b <- BrokerChannel.build E queue ;;
    match b with
    | Fulfilled _ =>
        r <- constructQueueAssertion queue true false false ;;
        let (queue, a) := r in
        match a with
        | Fulfilled _ =>
            binds <- bindEach queue exchange routingKeys ;;
            match Promise_all binds with
            | Fulfilled _ => ret (Resolved queue)
            | Thrown e =>
                debugError [Str (FAILED_BINDING_QUEUE_AND_EXCHANGE K +++ e)] ;;
                ret (Rejected (Str (FAILED_BINDING_QUEUE_AND_EXCHANGE K +++ e)))
            end
        | Thrown e =>
            debugError [Str (FAILED_BINDING_QUEUE_AND_EXCHANGE K +++ e)] ;;
            ret (Rejected (Str (FAILED_BINDING_QUEUE_AND_EXCHANGE K +++ e)))
        end
    | Thrown e =>
        debugError [Str (QUEUE_BUILD_THROWS_ERROR K +++ e)] ;;
        ret (Rejected (Str (QUEUE_BUILD_THROWS_ERROR K +++ e)))
    end.

Definition exchangeTemporarySubscriberInstance (exchange : Exchange)
  : M (Settled t) :=
  let queue := new None (Some exchange) (Some EmptyString) in
  b <- BrokerChannel.build E queue ;;
  match b with
  | Fulfilled _ =>
      r <- constructQueueAssertion queue false true true ;;
      let (queue, a) := r in
      match a with
      | Fulfilled _ =>
          bound <- Channel.bindQueue E (BrokerChannel.name queue)
                     (exchange_name exchange) EmptyString ;;
          match bound with
          | Fulfilled _ => ret (Resolved queue)
          | Thrown e =>
              debugError [Str (FAILED_BINDING_QUEUE_AND_EXCHANGE K +++ e)] ;;
              ret (Rejected (Str (FAILED_BINDING_QUEUE_AND_EXCHANGE K +++ e)))
          end
      | Thrown e =>
          debugError [Str (FAILED_BINDING_QUEUE_AND_EXCHANGE K +++ e)] ;;
          ret (Rejected (Str (FAILED_BINDING_QUEUE_AND_EXCHANGE K +++ e)))
      end
  | Thrown e =>
      debugError [Str (QUEUE_BUILD_THROWS_ERROR K +++ e)] ;;
      ret (Rejected (Str (QUEUE_BUILD_THROWS_ERROR K +++ e)))
  end.

(** No test of [name] here: the object is built and the pipeline runs
    whatever the name is. *)
Definition exchangeNamedSubscriberInstance (exchange : Exchange) (name : Name)
  : M (Settled t) :=
  let queue := new None (Some exchange) name in
  b <- BrokerChannel.build E queue ;;
  match b with
  | Fulfilled _ =>
      r <- constructQueueAssertion queue true false false ;;
      let (queue, a) := r in
      match a with
      | Fulfilled _ =>
          bound <- Channel.bindQueue E (BrokerChannel.name queue)
                     (exchange_name exchange) EmptyString ;;
          match bound with
          | Fulfilled _ => ret (Resolved queue)
          | Thrown e =>
              debugError [Str (FAILED_BINDING_QUEUE_AND_EXCHANGE K +++ e)] ;;
              ret (Rejected (Str (FAILED_BINDING_QUEUE_AND_EXCHANGE K +++ e)))
          end
      | Thrown e =>
          debugError [Str (FAILED_BINDING_QUEUE_AND_EXCHANGE K +++ e)] ;;
          ret (Rejected (Str (FAILED_BINDING_QUEUE_AND_EXCHANGE K +++ e)))
      end
  | Thrown e =>
      debugError [Str (QUEUE_BUILD_THROWS_ERROR K +++ e)] ;;
      ret (Rejected (Str (QUEUE_BUILD_THROWS_ERROR K +++ e)))
  end.

Definition exchangeTemporaryDirectOrTopicSubscriberInstance
    (exchange : Exchange) (routingKeys : list string) : M (Settled t) :=
  let queue := new None (Some exchange) (Some EmptyString) in
  b <- BrokerChannel.build E queue ;;
  match b with
  | Fulfilled _ =>
      r <- constructQueueAssertion queue false true true ;;
      let (queue, a) := r in
      match a with
      | Fulfilled _ =>
          binds <- bindEach queue exchange routingKeys ;;
          match Promise_all binds with
          | Fulfilled _ => ret (Resolved queue)
          | Thrown e =>
              debugError [Str (FAILED_BINDING_QUEUE_AND_EXCHANGE K +++ e)] ;;
              ret (Rejected (Str (FAILED_BINDING_QUEUE_AND_EXCHANGE K +++ e)))
          end
      | Thrown e =>
          debugError [Str (FAILED_BINDING_QUEUE_AND_EXCHANGE K +++ e)] ;;
          ret (Rejected (Str (FAILED_BINDING_QUEUE_AND_EXCHANGE K +++ e)))
      end
  | Thrown e =>
      debugError [Str (QUEUE_BUILD_THROWS_ERROR K +++ e)] ;;
      ret (Rejected (Str (QUEUE_BUILD_THROWS_ERROR K +++ e)))
  end.

(** The callback [consume] registers, [(msg) => { ... }]. *)
Definition onMessage (this : t) (messageListener : MessageListener)
    (ack : Message -> M unit) (msg : Message) : M (Outcome unit) :=
  s <- setCurrentMessage messageListener msg ;;
  match s with
  | Thrown e => ret (Thrown e)
  | Fulfilled _ =>
      h <- handleMessage messageListener msg ack ;;
      match h with
      | Fulfilled v => ret (Fulfilled v)
      | Thrown e =>
          BrokerChannel.emit this (MESSAGE_CONSUMER_ERROR_EVENT_NAME K) e ;;
          ret (Fulfilled tt)
      end
  end.

(** [consume(messageListener, ack, options)]: the settlement of the
    promise; deliveries then go to [onMessage]. *)
Definition consume (this : t) (messageListener : MessageListener)
    (ack : Message -> M unit) (options : option ConsumeOptions)
  : M (Settled unit) :=
  r <- Channel.consume E (BrokerChannel.name this) options ;;
  match r with
  | Fulfilled _ => ret (Resolved tt)
  | Thrown e =>
      debugError [Str (CHANNEL_CONSUME_ERROR K); e] ;;
      ret (Rejected e)
  end.

Definition nack (this : t) (message : Message) (reqeue : bool) : M unit :=
  Channel.nack message false reqeue.

Definition ack (this : t) (message : Message) : M unit :=
  Channel.ack message None.

Definition basicQos (this : t) (count : N) : M unit :=
  Channel.prefetch count.

End WithEnv.

End Queue.

(** ** Factory calls *)

(** One constructor per factory, holding the arguments of a call, so that
    a statement can range over every call of every factory. *)
Inductive Recipe : Type :=
| CustomInstanceUsingConnectionSetting
    (connectionSetting : ConnectionSetting) (name : Name)
    (isDurable isExclusive isAutoDeleted : option bool)
| CustomInstanceUsingExchange
    (exchange : Exchange) (name : Name) (routingKeys : option (list string))
    (isDurable isExclusive isAutoDeleted : option bool)
| DurableInstance (connectionSetting : ConnectionSetting) (name : Name)
| DurableExclusiveInstance (connectionSetting : ConnectionSetting) (name : Name)
| DurableNonExclusiveNotAutoDeletedInstance
    (connectionSetting : ConnectionSetting) (name : Name)
| IndividualExchangeSubscriberInstance
    (exchange : Exchange) (name : Name) (routingKeys : option (list string))
| ExchangeTemporarySubscriberInstance (exchange : Exchange)
| ExchangeNamedSubscriberInstance (exchange : Exchange) (name : Name)
| ExchangeTemporaryDirectOrTopicSubscriberInstance
    (exchange : Exchange) (routingKeys : list string).

Definition run (E : Env) (r : Recipe) : M (Settled Queue.t) :=
  match r with
  | CustomInstanceUsingConnectionSetting cs name d x a =>
      Queue.customInstanceUsingConnectionSetting E cs name d x a
  | CustomInstanceUsingExchange ex name rks d x a =>
      Queue.customInstanceUsingExchange E ex name rks d x a
  | DurableInstance cs name => Queue.durableInstance E cs name
  | DurableExclusiveInstance cs name => Queue.durableExclusiveInstance E cs name
  | DurableNonExclusiveNotAutoDeletedInstance cs name =>
      Queue.durableNonExclusiveNotAutoDeletedInstance E cs name
  | IndividualExchangeSubscriberInstance ex name rks =>
      Queue.individualExchangeSubscriberInstance E ex name rks
  | ExchangeTemporarySubscriberInstance ex =>
      Queue.exchangeTemporarySubscriberInstance E ex
  | ExchangeNamedSubscriberInstance ex name =>
      Queue.exchangeNamedSubscriberInstance E ex name
  | ExchangeTemporaryDirectOrTopicSubscriberInstance ex rks =>
      Queue.exchangeTemporaryDirectOrTopicSubscriberInstance E ex rks
  end.

(** The name a call asks for, when the factory takes one. *)
Definition requested_name (r : Recipe) : option Name :=
  match r with
  | CustomInstanceUsingConnectionSetting _ name _ _ _
  | CustomInstanceUsingExchange _ name _ _ _ _
  | DurableInstance _ name
  | DurableExclusiveInstance _ name
  | DurableNonExclusiveNotAutoDeletedInstance _ name
  | IndividualExchangeSubscriberInstance _ name _
  | ExchangeNamedSubscriberInstance _ name => Some name
  | ExchangeTemporarySubscriberInstance _
  | ExchangeTemporaryDirectOrTopicSubscriberInstance _ _ => None
  end.

(** The factories whose body starts with the test of [name]. *)
Definition checks_name (r : Recipe) : bool :=
  match r with
  | CustomInstanceUsingConnectionSetting _ _ _ _ _
  | CustomInstanceUsingExchange _ _ _ _ _ _
  | DurableInstance _ _
  | DurableExclusiveInstance _ _
  | DurableNonExclusiveNotAutoDeletedInstance _ _
  | IndividualExchangeSubscriberInstance _ _ _ => true
  | ExchangeTemporarySubscriberInstance _
  | ExchangeNamedSubscriberInstance _ _
  | ExchangeTemporaryDirectOrTopicSubscriberInstance _ _ => false
  end.

(** The durable recipes of the policy table. *)
Definition durable_recipe (r : Recipe) : bool :=
  match r with
  | DurableInstance _ _
  | DurableExclusiveInstance _ _
  | DurableNonExclusiveNotAutoDeletedInstance _ _
  | IndividualExchangeSubscriberInstance _ _ _
  | ExchangeNamedSubscriberInstance _ _ => true
  | _ => false
  end.

(** The temporary recipes, which ask the broker for a name. *)
Definition temporary_recipe (r : Recipe) : bool :=
  match r with
  | ExchangeTemporarySubscriberInstance _
  | ExchangeTemporaryDirectOrTopicSubscriberInstance _ _ => true
  | _ => false
  end.

(** The stages of the construction pipeline and the text each failure is
    announced with. *)
Inductive Stage : Type := Validate | Build | Assert | Bind.

Definition diagnostic (K : Constant) (s : Stage) : string :=
  match s with
  | Validate => INDIVIDUAL_SUBSCRIBER_MUST_HAS_NAME K
  | Build => QUEUE_BUILD_THROWS_ERROR K
  | Assert => FAILED_ASSERT_QUEUE K
  | Bind => FAILED_BINDING_QUEUE_AND_EXCHANGE K
  end.

(** A rejection [Constant.X + e] is announced as a failure of the stage
    whose text it starts with; [e] is the cause. *)
Definition announces (K : Constant) (s : Stage) (reason : Js.Value) : bool :=
  match reason with
  | Str text => String.prefix (diagnostic K s) text
  | Js.Error _ => false
  end.

(** The calls a computation adds to the trace. *)
Definition issues {A : Type} (m : M A) (w : World) (calls : list Call) : Prop :=
  trace (snd (m w)) = (trace w ++ calls)%list.

Definition is_assertQueue (c : Call) : bool :=
  match c with
  | CallAssertQueue _ _ => true
  | _ => false
  end.

Definition is_bindQueue (c : Call) : bool :=
  match c with
  | CallBindQueue _ _ _ => true
  | _ => false
  end.

(** The replies to the binds of [bindEach], each computed from the calls
    made before it. *)
Fixpoint bind_replies (T : Transport) (h : list Call) (queueName : Name)
    (source : string) (routingKeys : list string) : list (Outcome unit) :=
  match routingKeys with
  | [] => []
  | routingKey :: rest =>
      bindQueue_reply T h queueName source routingKey
      :: bind_replies T (h ++ [CallBindQueue queueName source routingKey])
           queueName source rest
  end.

Definition add_calls (w : World) (calls : list Call) : World :=
  {| trace := trace w ++ calls;
     emitted := emitted w;
     debug_log := debug_log w |}.

(** The object a call makes with [new this(...)]. *)
Definition constructed (E : Env) (r : Recipe) : Queue.t :=
  match r with
  | CustomInstanceUsingConnectionSetting cs name _ _ _
  | DurableInstance cs name
  | DurableExclusiveInstance cs name
  | DurableNonExclusiveNotAutoDeletedInstance cs name =>
      Queue.new E (Some cs) None name
  | CustomInstanceUsingExchange ex name _ _ _ _
  | IndividualExchangeSubscriberInstance ex name _
  | ExchangeNamedSubscriberInstance ex name =>
      Queue.new E None (Some ex) name
  | ExchangeTemporarySubscriberInstance ex
  | ExchangeTemporaryDirectOrTopicSubscriberInstance ex _ =>
      Queue.new E None (Some ex) (Some EmptyString)
  end.

(** The flags a call hands to [constructQueueAssertion]. *)
Definition declared (r : Recipe) : QueueOptions :=
  match r with
  | CustomInstanceUsingConnectionSetting _ _ d x a
  | CustomInstanceUsingExchange _ _ _ d x a =>
      {| durable := Queue.default true d;
         exclusive := Queue.default false x;
         autoDelete := Queue.default false a |}
  | DurableInstance _ _
  | DurableNonExclusiveNotAutoDeletedInstance _ _
  | IndividualExchangeSubscriberInstance _ _ _
  | ExchangeNamedSubscriberInstance _ _ =>
      {| durable := true; exclusive := false; autoDelete := false |}
  | DurableExclusiveInstance _ _ =>
      {| durable := true; exclusive := true; autoDelete := false |}
  | ExchangeTemporarySubscriberInstance _
  | ExchangeTemporaryDirectOrTopicSubscriberInstance _ _ =>
      {| durable := false; exclusive := true; autoDelete := true |}
  end.

(** The exchange and the routing keys a call binds to, when its factory
    has a binding stage. *)
Definition binding (r : Recipe) : option (Exchange * list string) :=
  match r with
  | CustomInstanceUsingExchange ex _ rks _ _ _
  | IndividualExchangeSubscriberInstance ex _ rks =>
      Some (ex, Queue.default [] rks)
  | ExchangeTemporaryDirectOrTopicSubscriberInstance ex rks => Some (ex, rks)
  | ExchangeTemporarySubscriberInstance ex
  | ExchangeNamedSubscriberInstance ex _ => Some (ex, [EmptyString])
  | _ => None
  end.

(** A call gets past the test of [name], or its factory has none. *)
Definition passes_validation (r : Recipe) : bool :=
  match requested_name r with
  | Some name => negb (checks_name r && Queue.name_is_null_or_empty name)
  | None => true
  end.

(** The text the handler of a failed [constructQueueAssertion] rejects
    with, factory by factory. *)
Definition assertion_handler_text (K : Constant) (r : Recipe) : string :=
  match r with
  | DurableInstance _ _
  | DurableExclusiveInstance _ _
  | DurableNonExclusiveNotAutoDeletedInstance _ _ => FAILED_ASSERT_QUEUE K
  | _ => FAILED_BINDING_QUEUE_AND_EXCHANGE K
  end.

(** The trace at the moment the declaration of a call is sent. *)
Definition after_build (E : Env) (r : Recipe) (w : World) : list Call :=
  trace w ++
  [CallBuild (BrokerChannel.connectionSetting (constructed E r))
     (BrokerChannel.brokerChannel (constructed E r))
     (BrokerChannel.name (constructed E r))].

(** The reply to the build of a call, and to its declaration. *)
Definition build_outcome (E : Env) (r : Recipe) (w : World) : Outcome unit :=
  build_reply (transport E) (trace w)
    (BrokerChannel.connectionSetting (constructed E r))
    (BrokerChannel.brokerChannel (constructed E r))
    (BrokerChannel.name (constructed E r)).

Definition assert_outcome (E : Env) (r : Recipe) (w : World)
  : Outcome AssertQueueReply :=
  assertQueue_reply (transport E) (after_build E r w)
    (BrokerChannel.name (constructed E r)) (declared r).

(** The trace at the moment the binds of a call are sent. *)
Definition after_assert (E : Env) (r : Recipe) (w : World) : list Call :=
  after_build E r w ++
  [CallAssertQueue (BrokerChannel.name (constructed E r)) (declared r)].

(** The queue object once the broker has answered the declaration. *)
Definition asserted (E : Env) (r : Recipe) (queueReply : AssertQueueReply)
  : Queue.t :=
  BrokerChannel.setName
    (BrokerChannel.setDurable (constructed E r) (durable (declared r)))
    (queue queueReply).

(** The factories that take a list of routing keys. *)
Definition takes_routing_keys (r : Recipe) : option (list string) :=
  match r with
  | CustomInstanceUsingExchange _ _ rks _ _ _
  | IndividualExchangeSubscriberInstance _ _ rks => Some (Queue.default [] rks)
  | ExchangeTemporaryDirectOrTopicSubscriberInstance _ rks => Some rks
  | _ => None
  end.

(** The world with one more event emitted on a queue instance. *)
Definition add_event (w : World) (event : string) (e : Js.Value) : World :=
  {| trace := trace w;
     emitted := emitted w ++ [(event, e)];
     debug_log := debug_log w |}.

(** The build call of a factory call, and its declaration. *)
Definition build_call (E : Env) (r : Recipe) : Call :=
  CallBuild (BrokerChannel.connectionSetting (constructed E r))
    (BrokerChannel.brokerChannel (constructed E r))
    (BrokerChannel.name (constructed E r)).

Definition assert_call (E : Env) (r : Recipe) : Call :=
  CallAssertQueue (BrokerChannel.name (constructed E r)) (declared r).

(** A listener that emits nothing on the queue by itself, whatever it is
    called with. *)
Definition emits_nothing (messageListener : MessageListener)
    (ack : Message -> M unit) : Prop :=
  forall msg w,
    emitted (snd (setCurrentMessage messageListener msg w)) = emitted w /\
    emitted (snd (handleMessage messageListener msg ack w)) = emitted w.

(** A listener whose [setCurrentMessage] returns normally. *)
Definition setCurrentMessage_returns (messageListener : MessageListener)
  : Prop :=
  forall msg w, fst (setCurrentMessage messageListener msg w) = Fulfilled tt.

(** ** Doubles for the closed examples *)

Module Sample.

(** A catalogue of texts.  The general statements hold for every
    catalogue; this one only feeds the examples. *)
Definition K : Constant :=
  {| INDIVIDUAL_SUBSCRIBER_MUST_HAS_NAME := "An individual subscriber must be named.";
     QUEUE_BUILD_THROWS_ERROR := "Queue build throws an error: ";
     FAILED_ASSERT_QUEUE := "Failed to assert the queue: ";
     FAILED_BINDING_QUEUE_AND_EXCHANGE := "Failed to bind the queue and the exchange: ";
     PROMISE_ALL_FAILED_TO_BIND_QUEUE_TO_EXCHANGE := "Promise.all failed to bind the queue to the exchange: ";
     MESSAGE_CONSUMER_ERROR_EVENT_NAME := "MessageConsumerError";
     CHANNEL_CONSUME_ERROR := "Channel consume error: " |}.

(** A broker that accepts everything and names the queues that come
    without a name. *)
Definition assigned_name (name : Name) : string :=
  match name with
  | None => "amq.gen-1"
  | Some s => if String.eqb s EmptyString then "amq.gen-1" else s
  end.

Definition broker : Transport :=
  {| build_reply := fun _ _ _ _ => Fulfilled tt;
     assertQueue_reply := fun _ name _ =>
       Fulfilled {| queue := assigned_name name;
                    messageCount := 0;
                    consumerCount := 0 |};
     bindQueue_reply := fun _ _ _ _ => Fulfilled tt;
     consume_reply := fun _ _ _ => Fulfilled tt |}.

(** The same broker, out of reach. *)
Definition unreachable : Transport :=
  {| build_reply := fun _ _ _ _ => Thrown (Js.Error "connect ECONNREFUSED");
     assertQueue_reply := assertQueue_reply broker;
     bindQueue_reply := bindQueue_reply broker;
     consume_reply := consume_reply broker |}.

(** A broker that refuses every declaration. *)
Definition refusing_assert : Transport :=
  {| build_reply := build_reply broker;
     assertQueue_reply := fun _ _ _ => Thrown (Js.Error "PRECONDITION_FAILED");
     bindQueue_reply := bindQueue_reply broker;
     consume_reply := consume_reply broker |}.

(** A broker that refuses the binds of one routing key. *)
Definition refusing_bind (pattern : string) : Transport :=
  {| build_reply := build_reply broker;
     assertQueue_reply := assertQueue_reply broker;
     bindQueue_reply := fun _ _ _ p =>
       if String.eqb p pattern then Thrown (Js.Error "NOT_FOUND")
       else Fulfilled tt;
     consume_reply := consume_reply broker |}.

Definition env (T : Transport) : Env :=
  {| constant := K; transport := T; initial_isDurable := false |}.

Definition setting : ConnectionSetting :=
  {| host := "localhost"; port := 5672; username := "guest";
     password := "guest"; vhost := "/" |}.

Definition events : Exchange := {| exchange_name := "events" |}.

Definition delivery (tag : N) : Message :=
  {| content := "X"; deliveryTag := tag |}.

(** A listener that acknowledges through the callback it is handed,
    except for the delivery tagged [bad], on which it throws. *)
Definition listener (bad : N) : MessageListener :=
  {| setCurrentMessage := fun _ => ret (Fulfilled tt);
     handleMessage := fun msg ack =>
       if N.eqb (deliveryTag msg) bad
       then ret (Thrown (Js.Error "malformed"))
       else ack msg ;; ret (Fulfilled tt) |}.

(** A listener whose [setCurrentMessage] throws. *)
Definition broken_listener : MessageListener :=
  {| setCurrentMessage := fun _ => ret (Thrown (Js.Error "no slot"));
     handleMessage := fun _ _ => ret (Fulfilled tt) |}.

End Sample.

(** * Properties *)

(** ** Strings and promises *)

Lemma prefix_app (a r : string) : String.prefix a (a ++ r) = true.
Proof.
  induction a as [|c a IH]; simpl.
  - destruct r; reflexivity.
  - destruct (Ascii.ascii_dec c c) as [_|N]; [exact IH | now elim N].
Qed.

(** Two texts of which neither starts with the other: a string that
    starts with one does not start with the other. *)
Lemma prefix_incomparable (a b r : string) :
  String.prefix a b = false -> String.prefix b a = false ->
  String.prefix a (b ++ r) = false.
Proof.
  revert b. induction a as [|c a IH]; intros b Hab Hba.
  - destruct b; discriminate.
  - destruct b as [|d b]; [discriminate|].
    simpl in *. destruct (Ascii.ascii_dec c d) as [->|N].
    + destruct (Ascii.ascii_dec d d) as [_|N]; [|now elim N].
      now apply IH.
    + reflexivity.
Qed.

Lemma Promise_all_rejects {A : Type} (ps : list (Outcome A)) (e : Js.Value) :
  In (Thrown e) ps -> exists e', Promise_all ps = Thrown e'.
Proof.
  induction ps as [|p ps IH]; intros H; [contradiction|].
  destruct p as [a|e0]; simpl.
  - destruct H as [H|H]; [discriminate|].
    destruct (IH H) as [e' ->]. now exists e'.
  - now exists e0.
Qed.

Lemma Promise_all_fulfilled {A : Type} (ps : list (Outcome A)) :
  (forall e, ~ In (Thrown e) ps) -> exists l, Promise_all ps = Fulfilled l.
Proof.
  induction ps as [|p ps IH]; intros H; simpl; [now eexists|].
  destruct p as [a|e0].
  - destruct IH as [l ->]; [|now eexists].
    intros e He. apply (H e). now right.
  - exfalso. apply (H e0). now left.
Qed.

(** The rejection [Promise.all] settles with is one of its promises'. *)
Lemma Promise_all_thrown_in {A : Type} (ps : list (Outcome A)) (e : Js.Value) :
  Promise_all ps = Thrown e -> In (Thrown e) ps.
Proof.
  induction ps as [|p ps IH]; simpl; [discriminate|].
  destruct p as [a|e0].
  - destruct (Promise_all ps); [discriminate|].
    intros [= ->]. right. now apply IH.
  - intros [= ->]. now left.
Qed.

(** ** The binds of a routing-key list *)

Lemma add_calls_nil (w : World) : add_calls w [] = w.
Proof. destruct w. unfold add_calls. simpl. now rewrite app_nil_r. Qed.

Lemma bindEach_run (E : Env) (q : Queue.t) (exchange : Exchange)
    (routingKeys : list string) (w : World) :
  Queue.bindEach E q exchange routingKeys w =
  (bind_replies (transport E) (trace w) (BrokerChannel.name q)
     (exchange_name exchange) routingKeys,
   add_calls w (map (CallBindQueue (BrokerChannel.name q)
                       (exchange_name exchange)) routingKeys)).
Proof.
  unfold Queue.bindEach. revert w.
  induction routingKeys as [|rk rest IH]; intros w; simpl.
  - unfold ret. now rewrite add_calls_nil.
  - unfold bind at 1. unfold Channel.bindQueue at 1.
    unfold bind, history, record_call, ret at 1. simpl.
    unfold bind in IH |- *. rewrite IH. unfold ret. simpl.
    f_equal. unfold add_calls. simpl. now rewrite <- app_assoc.
Qed.

(** ** The stages, run *)

Lemma build_run (E : Env) (q : Queue.t) (w : World) :
  BrokerChannel.build E q w =
  (build_reply (transport E) (trace w) (BrokerChannel.connectionSetting q)
     (BrokerChannel.brokerChannel q) (BrokerChannel.name q),
   add_calls w [CallBuild (BrokerChannel.connectionSetting q)
                  (BrokerChannel.brokerChannel q) (BrokerChannel.name q)]).
Proof. reflexivity. Qed.

Lemma constructQueueAssertion_run (E : Env) (q : Queue.t)
    (isDurable isExclusive isAutoDeleted : bool) (w : World) :
  Queue.constructQueueAssertion E q isDurable isExclusive isAutoDeleted w =
  (match assertQueue_reply (transport E) (trace w) (BrokerChannel.name q)
           {| durable := isDurable; exclusive := isExclusive;
              autoDelete := isAutoDeleted |} with
   | Fulfilled queueReply =>
       (BrokerChannel.setName (BrokerChannel.setDurable q isDurable)
          (queue queueReply), Fulfilled tt)
   | Thrown e =>
       (BrokerChannel.setDurable q isDurable,
        Thrown (Js.Error (FAILED_ASSERT_QUEUE (constant E) +++ e)))
   end,
   add_calls w [CallAssertQueue (BrokerChannel.name q)
                  {| durable := isDurable; exclusive := isExclusive;
                     autoDelete := isAutoDeleted |}]).
Proof.
  unfold Queue.constructQueueAssertion, Channel.assertQueue, bind, history,
    record_call, ret. simpl.
  destruct (assertQueue_reply _ _ _ _); reflexivity.
Qed.

Lemma bindQueue_run (E : Env) (qn : Name) (src pat : string) (w : World) :
  Channel.bindQueue E qn src pat w =
  (bindQueue_reply (transport E) (trace w) qn src pat,
   add_calls w [CallBindQueue qn src pat]).
Proof. reflexivity. Qed.

(** Unfolds a factory down to its stages and replaces each stage by its
    result. *)
Ltac stages :=
  cbv beta iota zeta delta
    [run Queue.customInstanceUsingConnectionSetting
       Queue.customInstanceUsingExchange Queue.durableInstance
       Queue.durableExclusiveInstance
       Queue.durableNonExclusiveNotAutoDeletedInstance
       Queue.individualExchangeSubscriberInstance
       Queue.exchangeTemporarySubscriberInstance
       Queue.exchangeNamedSubscriberInstance
       Queue.exchangeTemporaryDirectOrTopicSubscriberInstance
       bind issues];
  repeat first
    [ rewrite build_run
    | rewrite constructQueueAssertion_run
    | rewrite bindEach_run
    | rewrite bindQueue_run ].

(** Splits on the reply a stuck stage is waiting for. *)
Ltac split_reply :=
  match goal with
  | |- context [match ?x with Fulfilled _ => _ | Thrown _ => _ end] =>
      let R := fresh "R" in destruct x eqn:R
  end.

Ltac pipeline := stages; simpl; repeat (split_reply; stages; simpl).

(** ** Validation *)

(** The six factories that test [name] reject a null or empty name with
    the name-required text and leave the world as it was: no call, no
    event, no debug line. *)
Lemma name_required_before_any_io (E : Env) (r : Recipe) (name : Name)
    (w : World) :
  checks_name r = true ->
  requested_name r = Some name ->
  Queue.name_is_null_or_empty name = true ->
  run E r w =
  (Rejected (Str (INDIVIDUAL_SUBSCRIBER_MUST_HAS_NAME (constant E))), w).
Proof.
  intros Hc Hn He.
  destruct r; simpl in Hc, Hn; try discriminate;
    injection Hn as ->; stages; rewrite He; reflexivity.
Qed.

(** [exchangeNamedSubscriberInstance] has no such test.  Whatever name
    it is called with, the null and the empty one included, the first
    thing it does is the build call on a queue object made with that
    name: there is no name-required rejection ahead of the I/O. *)
Lemma exchangeNamedSubscriberInstance_builds_without_name_check
    (E : Env) (exchange : Exchange) (name : Name) (w : World) :
  exists calls,
    issues (Queue.exchangeNamedSubscriberInstance E exchange name) w
      (CallBuild None (Some exchange) name :: calls).
Proof.
  pipeline; rewrite <- ?app_assoc; simpl; eexists; reflexivity.
Qed.

(** The sibling [individualExchangeSubscriberInstance] rejects the same
    call before any I/O. *)
Example individualExchangeSubscriberInstance_empty_name_rejects :
  run (Sample.env Sample.broker)
    (IndividualExchangeSubscriberInstance Sample.events (Some EmptyString)
       None)
    empty_world =
  (Rejected (Str "An individual subscriber must be named."), empty_world).
Proof. reflexivity. Qed.

(** ** The pipeline, stage by stage, for every call *)

Ltac table :=
  unfold passes_validation, build_outcome, assert_outcome, after_assert,
    after_build in *;
  simpl in *.

Lemma negb_andb_true_false (b : bool) : negb (true && b) = true -> b = false.
Proof. now destruct b. Qed.

(** A call stopped by the test of [name]. *)
Lemma run_validation_failure (E : Env) (r : Recipe) (w : World) :
  passes_validation r = false ->
  run E r w =
  (Rejected (Str (INDIVIDUAL_SUBSCRIBER_MUST_HAS_NAME (constant E))), w).
Proof.
  intros H. destruct r; table; try discriminate;
    apply negb_false_iff in H; stages; rewrite H; reflexivity.
Qed.

(** A call whose build fails: one call on the transport, and a rejection
    made of the build text and the cause. *)
Lemma run_build_failure (E : Env) (r : Recipe) (w : World) (e : Js.Value) :
  passes_validation r = true ->
  build_outcome E r w = Thrown e ->
  fst (run E r w) =
    Rejected (Str (QUEUE_BUILD_THROWS_ERROR (constant E) +++ e)) /\
  issues (run E r) w
    [CallBuild (BrokerChannel.connectionSetting (constructed E r))
       (BrokerChannel.brokerChannel (constructed E r))
       (BrokerChannel.name (constructed E r))].
Proof.
  intros V B. destruct r; table;
    try (apply negb_andb_true_false in V);
    stages; simpl; rewrite ?V; stages; simpl; rewrite B; simpl;
    split; reflexivity.
Qed.

(** A call whose declaration fails: the build and the declaration are the
    only calls, and the rejection is the text of the factory's handler in
    front of the error [constructQueueAssertion] throws. *)
Lemma run_assert_failure (E : Env) (r : Recipe) (w : World) (e : Js.Value) :
  passes_validation r = true ->
  build_outcome E r w = Fulfilled tt ->
  assert_outcome E r w = Thrown e ->
  fst (run E r w) =
    Rejected
      (Str (assertion_handler_text (constant E) r +++
            Js.Error (FAILED_ASSERT_QUEUE (constant E) +++ e))) /\
  issues (run E r) w
    [CallBuild (BrokerChannel.connectionSetting (constructed E r))
       (BrokerChannel.brokerChannel (constructed E r))
       (BrokerChannel.name (constructed E r));
     CallAssertQueue (BrokerChannel.name (constructed E r)) (declared r)].
Proof.
  intros V B A. destruct r; table;
    try (apply negb_andb_true_false in V);
    stages; simpl; rewrite ?V; stages; simpl; rewrite B; stages; simpl;
    rewrite A; simpl; rewrite <- ?app_assoc; split; reflexivity.
Qed.

(** A call whose declaration succeeds.  Without a binding stage the queue
    is resolved.  With one, every routing key gets its bind, under the
    name the broker answered with, and the settlement is that of
    [Promise.all] over the replies. *)
Lemma run_asserted (E : Env) (r : Recipe) (w : World)
    (queueReply : AssertQueueReply) :
  passes_validation r = true ->
  build_outcome E r w = Fulfilled tt ->
  assert_outcome E r w = Fulfilled queueReply ->
  match binding r with
  | None =>
      fst (run E r w) = Resolved (asserted E r queueReply) /\
      issues (run E r) w
        [CallBuild (BrokerChannel.connectionSetting (constructed E r))
           (BrokerChannel.brokerChannel (constructed E r))
           (BrokerChannel.name (constructed E r));
         CallAssertQueue (BrokerChannel.name (constructed E r)) (declared r)]
  | Some (exchange, routingKeys) =>
      fst (run E r w) =
        match Promise_all
                (bind_replies (transport E) (after_assert E r w)
                   (Some (queue queueReply)) (exchange_name exchange)
                   routingKeys) with
        | Fulfilled _ => Resolved (asserted E r queueReply)
        | Thrown e =>
            Rejected
              (Str (FAILED_BINDING_QUEUE_AND_EXCHANGE (constant E) +++ e))
        end /\
      issues (run E r) w
        (CallBuild (BrokerChannel.connectionSetting (constructed E r))
           (BrokerChannel.brokerChannel (constructed E r))
           (BrokerChannel.name (constructed E r))
         :: CallAssertQueue (BrokerChannel.name (constructed E r)) (declared r)
         :: map (CallBindQueue (Some (queue queueReply))
                   (exchange_name exchange)) routingKeys)
  end.
Proof.
  intros V B A. destruct r; table;
    try (apply negb_andb_true_false in V);
    stages; simpl; rewrite ?V; stages; simpl; rewrite B; stages; simpl;
    rewrite A; stages; simpl.
  all: try (split; [reflexivity | rewrite <- ?app_assoc; reflexivity]).
  all: try (destruct (Promise_all _); simpl; rewrite <- ?app_assoc; split; reflexivity).
  all: destruct (bindQueue_reply _ _ _ _ _); simpl; rewrite <- ?app_assoc; split; reflexivity.
Qed.

(** ** The factory without the test of its name *)

(** C1, at the factory that misses the test of [name].  Called with a
    null or empty name, [exchangeNamedSubscriberInstance] does not reject
    ahead of the I/O: when the transport accepts the build, the
    declaration and the bind, it has made the queue object, issued the
    build, the declaration under the name it was given and the bind, and
    it resolves a queue under the name the broker answered with. *)
Theorem exchangeNamedSubscriberInstance_runs_without_a_name
    (E : Env) (exchange : Exchange) (name : Name) (w : World)
    (queueReply : AssertQueueReply) :
  let r := ExchangeNamedSubscriberInstance exchange name in
  Queue.name_is_null_or_empty name = true ->
  build_outcome E r w = Fulfilled tt ->
  assert_outcome E r w = Fulfilled queueReply ->
  bindQueue_reply (transport E) (after_assert E r w)
    (Some (queue queueReply)) (exchange_name exchange) EmptyString =
    Fulfilled tt ->
  fst (Queue.exchangeNamedSubscriberInstance E exchange name w) =
    Resolved (asserted E r queueReply) /\
  BrokerChannel.name (asserted E r queueReply) = Some (queue queueReply) /\
  issues (Queue.exchangeNamedSubscriberInstance E exchange name) w
    [CallBuild None (Some exchange) name;
     CallAssertQueue name
       {| durable := true; exclusive := false; autoDelete := false |};
     CallBindQueue (Some (queue queueReply)) (exchange_name exchange)
       EmptyString].
Proof.
  intros r _ B A Bd.
  pose proof (run_asserted E r w queueReply eq_refl B A) as S.
  cbn [binding r bind_replies Promise_all map] in S.
  rewrite Bd in S. destruct S as [F I].
  split; [exact F|]. split; [reflexivity | exact I].
Qed.

(** The empty name against a broker that accepts everything. *)
Lemma exchangeNamedSubscriberInstance_runs_without_a_name_witness :
  fst (Queue.exchangeNamedSubscriberInstance (Sample.env Sample.broker)
         Sample.events (Some EmptyString) empty_world) =
    Resolved {| BrokerChannel.connectionSetting := None;
                BrokerChannel.brokerChannel := Some Sample.events;
                BrokerChannel.name := Some "amq.gen-1";
                BrokerChannel.isDurable := true |} /\
  issues (Queue.exchangeNamedSubscriberInstance (Sample.env Sample.broker)
            Sample.events (Some EmptyString)) empty_world
    [CallBuild None (Some Sample.events) (Some EmptyString);
     CallAssertQueue (Some EmptyString)
       {| durable := true; exclusive := false; autoDelete := false |};
     CallBindQueue (Some "amq.gen-1") "events" EmptyString].
Proof.
  destruct
    (exchangeNamedSubscriberInstance_runs_without_a_name
       (Sample.env Sample.broker) Sample.events (Some EmptyString)
       empty_world
       {| queue := "amq.gen-1"; messageCount := 0; consumerCount := 0 |}
       eq_refl eq_refl eq_refl eq_refl)
    as (F & _ & I).
  split; [exact F | exact I].
Defined.

(** The whole run of that call, settlement and world. *)
Example exchangeNamedSubscriberInstance_empty_name_resolves :
  run (Sample.env Sample.broker)
    (ExchangeNamedSubscriberInstance Sample.events (Some EmptyString))
    empty_world =
  (Resolved {| BrokerChannel.connectionSetting := None;
               BrokerChannel.brokerChannel := Some Sample.events;
               BrokerChannel.name := Some "amq.gen-1";
               BrokerChannel.isDurable := true |},
   {| trace :=
        [CallBuild None (Some Sample.events) (Some EmptyString);
         CallAssertQueue (Some EmptyString)
           {| durable := true; exclusive := false; autoDelete := false |};
         CallBindQueue (Some "amq.gen-1") "events" EmptyString];
      emitted := [];
      debug_log := [] |}).
Proof. reflexivity. Qed.

(** ** Which stage a rejection announces *)

(** A build failure is announced with the build text, by every factory. *)
Lemma build_failure_announces_build (E : Env) (r : Recipe) (w : World)
    (e : Js.Value) :
  passes_validation r = true ->
  build_outcome E r w = Thrown e ->
  exists reason,
    fst (run E r w) = Rejected reason /\
    announces (constant E) Build reason = true.
Proof.
  intros V B. destruct (run_build_failure E r w e V B) as [-> _].
  eexists. split; [reflexivity|]. apply prefix_app.
Qed.

(** A declaration failure is announced with the declaration text by the
    three durable factories built on a connection setting. *)
Lemma assertion_failure_announces_assert (E : Env) (r : Recipe) (w : World)
    (e : Js.Value) :
  passes_validation r = true ->
  build_outcome E r w = Fulfilled tt ->
  assert_outcome E r w = Thrown e ->
  assertion_handler_text (constant E) r = FAILED_ASSERT_QUEUE (constant E) ->
  exists reason,
    fst (run E r w) = Rejected reason /\
    announces (constant E) Assert reason = true.
Proof.
  intros V B A T. destruct (run_assert_failure E r w e V B A) as [-> _].
  eexists. split; [reflexivity|]. rewrite T. apply prefix_app.
Qed.

(** C2, at [customInstanceUsingConnectionSetting].  When the build
    succeeds and the broker refuses the declaration, the factory, which
    has no binding stage, rejects with the binding text in front of the
    error thrown by [constructQueueAssertion]: for a catalogue in which
    neither of the two texts starts with the other, the rejection is
    announced as a binding failure and not as a declaration failure. *)
Theorem customInstanceUsingConnectionSetting_assert_failure_announces_bind
    (E : Env) (connectionSetting : ConnectionSetting) (name : Name)
    (isDurable isExclusive isAutoDeleted : option bool) (w : World)
    (e : Js.Value) :
  let r := CustomInstanceUsingConnectionSetting connectionSetting name
             isDurable isExclusive isAutoDeleted in
  Queue.name_is_null_or_empty name = false ->
  build_outcome E r w = Fulfilled tt ->
  assert_outcome E r w = Thrown e ->
  String.prefix (FAILED_ASSERT_QUEUE (constant E))
    (FAILED_BINDING_QUEUE_AND_EXCHANGE (constant E)) = false ->
  String.prefix (FAILED_BINDING_QUEUE_AND_EXCHANGE (constant E))
    (FAILED_ASSERT_QUEUE (constant E)) = false ->
  binding r = None /\
  fst (Queue.customInstanceUsingConnectionSetting E connectionSetting name
         isDurable isExclusive isAutoDeleted w) =
    Rejected
      (Str (FAILED_BINDING_QUEUE_AND_EXCHANGE (constant E) +++
            Js.Error (FAILED_ASSERT_QUEUE (constant E) +++ e))) /\
  announces (constant E) Bind
    (Str (FAILED_BINDING_QUEUE_AND_EXCHANGE (constant E) +++
          Js.Error (FAILED_ASSERT_QUEUE (constant E) +++ e))) = true /\
  announces (constant E) Assert
    (Str (FAILED_BINDING_QUEUE_AND_EXCHANGE (constant E) +++
          Js.Error (FAILED_ASSERT_QUEUE (constant E) +++ e))) = false.
Proof.
  intros r V B A P1 P2.
  assert (V' : passes_validation r = true)
    by (unfold passes_validation; simpl; now rewrite V).
  destruct (run_assert_failure E r w e V' B A) as [R _].
  split; [reflexivity|]. split; [exact R|]. split.
  - apply prefix_app.
  - now apply prefix_incomparable.
Qed.

Lemma customInstanceUsingConnectionSetting_assert_failure_witness :
  fst (Queue.customInstanceUsingConnectionSetting
         (Sample.env Sample.refusing_assert) Sample.setting (Some "orders")
         None None None empty_world) =
    Rejected
      (Str "Failed to bind the queue and the exchange: Error: Failed to assert the queue: Error: PRECONDITION_FAILED") /\
  announces Sample.K Assert
    (Str "Failed to bind the queue and the exchange: Error: Failed to assert the queue: Error: PRECONDITION_FAILED")
  = false.
Proof.
  pose proof
    (customInstanceUsingConnectionSetting_assert_failure_announces_bind
       (Sample.env Sample.refusing_assert) Sample.setting (Some "orders")
       None None None empty_world (Js.Error "PRECONDITION_FAILED")
       eq_refl eq_refl eq_refl eq_refl eq_refl) as H.
  destruct H as (_ & R & _ & N).
  split; [exact R | exact N].
Defined.

(** The durable sibling announces the same failure with the declaration
    text. *)
Example durableInstance_assert_failure :
  fst (run (Sample.env Sample.refusing_assert)
         (DurableInstance Sample.setting (Some "orders")) empty_world) =
  Rejected
    (Str "Failed to assert the queue: Error: Failed to assert the queue: Error: PRECONDITION_FAILED").
Proof. reflexivity. Qed.

(** ** The name of a resolved queue *)

Lemma build_outcome_cases (E : Env) (r : Recipe) (w : World) :
  build_outcome E r w = Fulfilled tt \/
  exists e, build_outcome E r w = Thrown e.
Proof.
  destruct (build_outcome E r w) as [[]|e]; [now left | right; now exists e].
Qed.

Lemma temporary_passes_validation (r : Recipe) :
  temporary_recipe r = true -> passes_validation r = true.
Proof. destruct r; simpl; intros H; try discriminate; reflexivity. Qed.

(** C3.  When a temporary factory resolves a queue, the broker answered
    the declaration, which was sent with the empty name; the name of the
    resolved queue is the one in that answer, hence not the empty string
    unless the broker answered with it; and the calls after the
    declaration are the binds of the recipe, each under that name. *)
Theorem temporary_queue_takes_the_broker_name
    (E : Env) (r : Recipe) (w w' : World) (q : Queue.t) :
  temporary_recipe r = true ->
  run E r w = (Resolved q, w') ->
  exists queueReply exchange routingKeys,
    assert_outcome E r w = Fulfilled queueReply /\
    BrokerChannel.name (constructed E r) = Some EmptyString /\
    BrokerChannel.name q = Some (queue queueReply) /\
    (queue queueReply <> EmptyString ->
     BrokerChannel.name q <> Some EmptyString) /\
    binding r = Some (exchange, routingKeys) /\
    trace w' =
      (trace w ++
       CallBuild None (Some exchange) (Some EmptyString)
       :: CallAssertQueue (Some EmptyString) (declared r)
       :: map (CallBindQueue (Some (queue queueReply))
                 (exchange_name exchange)) routingKeys)%list.
Proof.
  intros T R.
  pose proof (temporary_passes_validation r T) as V.
  destruct (build_outcome_cases E r w) as [B|[e B]].
  2:{ destruct (run_build_failure E r w e V B) as [F _].
      rewrite R in F. discriminate. }
  destruct (assert_outcome E r w) as [queueReply|e] eqn:A.
  2:{ destruct (run_assert_failure E r w e V B A) as [F _].
      rewrite R in F. discriminate. }
  pose proof (run_asserted E r w queueReply V B A) as S.
  unfold issues in S.
  destruct r; try discriminate; rewrite R in S; simpl in S;
    destruct S as [F I];
    repeat match type of F with
           | context [match ?x with Fulfilled _ => _ | Thrown _ => _ end] =>
               destruct x
           end;
    try discriminate;
    injection F as ->;
    exists queueReply; eexists; eexists;
    (split; [reflexivity|]); (split; [reflexivity|]);
    (split; [reflexivity|]);
    (split; [intros N [= H]; now apply N|]);
    (split; [reflexivity|]); exact I.
Qed.

Lemma temporary_queue_takes_the_broker_name_witness :
  exists queueReply exchange routingKeys,
    assert_outcome (Sample.env Sample.broker)
      (ExchangeTemporaryDirectOrTopicSubscriberInstance Sample.events
         ["created"; "deleted"]) empty_world = Fulfilled queueReply /\
    queue queueReply = "amq.gen-1" /\
    binding (ExchangeTemporaryDirectOrTopicSubscriberInstance Sample.events
               ["created"; "deleted"]) = Some (exchange, routingKeys) /\
    trace (snd (run (Sample.env Sample.broker)
                  (ExchangeTemporaryDirectOrTopicSubscriberInstance
                     Sample.events ["created"; "deleted"]) empty_world)) =
      (CallBuild None (Some exchange) (Some EmptyString)
       :: CallAssertQueue (Some EmptyString)
            {| durable := false; exclusive := true; autoDelete := true |}
       :: map (CallBindQueue (Some (queue queueReply))
                 (exchange_name exchange)) routingKeys).
Proof.
  destruct
    (temporary_queue_takes_the_broker_name (Sample.env Sample.broker)
       (ExchangeTemporaryDirectOrTopicSubscriberInstance Sample.events
          ["created"; "deleted"])
       empty_world _ _ eq_refl eq_refl)
    as (queueReply & exchange & routingKeys & A & _ & _ & _ & Bd & Tr).
  exists queueReply, exchange, routingKeys.
  split; [exact A|]. split; [now injection A as <-|].
  split; [exact Bd | exact Tr].
Defined.

(** ** The flags of the declaration *)

Lemma filter_assertQueue_binds (qn : Name) (src : string) (rks : list string) :
  filter is_assertQueue (map (CallBindQueue qn src) rks) = [].
Proof. induction rks as [|rk rest IH]; simpl; [reflexivity | exact IH]. Qed.

Lemma filter_bindQueue_binds (qn : Name) (src : string) (rks : list string) :
  filter is_bindQueue (map (CallBindQueue qn src) rks) =
  map (CallBindQueue qn src) rks.
Proof.
  induction rks as [|rk rest IH]; simpl; [reflexivity | now rewrite IH].
Qed.

(** The declarations among the calls of a factory call: none when the
    call stops at validation or at the build, otherwise one, with the
    name of the constructed object and the flags of the recipe. *)
Lemma run_declarations (E : Env) (r : Recipe) (w : World) :
  exists calls,
    issues (run E r) w calls /\
    filter is_assertQueue calls =
      if passes_validation r then
        match build_outcome E r w with
        | Fulfilled _ =>
            [CallAssertQueue (BrokerChannel.name (constructed E r))
               (declared r)]
        | Thrown _ => []
        end
      else [].
Proof.
  destruct (passes_validation r) eqn:V.
  2:{ exists []. unfold issues. rewrite (run_validation_failure E r w V).
      simpl. now rewrite app_nil_r. }
  destruct (build_outcome_cases E r w) as [B|[e B]].
  2:{ destruct (run_build_failure E r w e V B) as [_ I].
      eexists. split; [exact I|]. now rewrite B. }
  rewrite B.
  destruct (assert_outcome E r w) as [queueReply|e] eqn:A.
  2:{ destruct (run_assert_failure E r w e V B A) as [_ I].
      eexists. split; [exact I|]. reflexivity. }
  pose proof (run_asserted E r w queueReply V B A) as S.
  destruct (binding r) as [[exchange routingKeys]|]; destruct S as [_ I];
    eexists; (split; [exact I|]); simpl; [|reflexivity].
  now rewrite filter_assertQueue_binds.
Qed.

(** C4.  Among the calls of a factory call, every [assertQueue] carries
    the flags of its recipe: [durable] is true for the five durable
    recipes, and the flags are durable false, exclusive true, autoDelete
    true for the two temporary ones.  The declaration is there, once, as
    soon as the call gets past validation and the build. *)
Theorem assertQueue_flags_of_the_recipe (E : Env) (r : Recipe) (w : World) :
  exists calls,
    issues (run E r) w calls /\
    (durable_recipe r = true ->
     forall name options,
       In (CallAssertQueue name options) calls -> durable options = true) /\
    (temporary_recipe r = true ->
     forall name options,
       In (CallAssertQueue name options) calls ->
       options =
         {| durable := false; exclusive := true; autoDelete := true |}) /\
    (passes_validation r = true -> build_outcome E r w = Fulfilled tt ->
     filter is_assertQueue calls =
       [CallAssertQueue (BrokerChannel.name (constructed E r)) (declared r)]).
Proof.
  destruct (run_declarations E r w) as (calls & I & F).
  exists calls. split; [exact I|].
  assert (D : forall name options,
             In (CallAssertQueue name options) calls ->
             options = declared r).
  { intros name options H.
    assert (H' : In (CallAssertQueue name options)
                   (filter is_assertQueue calls))
      by (apply filter_In; split; [exact H | reflexivity]).
    rewrite F in H'.
    destruct (passes_validation r); [|contradiction].
    destruct (build_outcome E r w); [|contradiction].
    destruct H' as [[= _ <-]|[]]. reflexivity. }
  split; [|split].
  - intros Dr name options H. rewrite (D name options H).
    destruct r; try discriminate; reflexivity.
  - intros Tr name options H. rewrite (D name options H).
    destruct r; try discriminate; reflexivity.
  - intros V B. now rewrite F, V, B.
Qed.

Lemma assertQueue_flags_of_the_recipe_witness :
  (exists calls,
     issues (run (Sample.env Sample.broker)
               (DurableExclusiveInstance Sample.setting (Some "orders")))
       empty_world calls /\
     (forall name options,
        In (CallAssertQueue name options) calls -> durable options = true) /\
     filter is_assertQueue calls =
       [CallAssertQueue (Some "orders")
          {| durable := true; exclusive := true; autoDelete := false |}]) /\
  (exists calls,
     issues (run (Sample.env Sample.broker)
               (ExchangeTemporarySubscriberInstance Sample.events))
       empty_world calls /\
     (forall name options,
        In (CallAssertQueue name options) calls ->
        options =
          {| durable := false; exclusive := true; autoDelete := true |}) /\
     filter is_assertQueue calls =
       [CallAssertQueue (Some EmptyString)
          {| durable := false; exclusive := true; autoDelete := true |}]).
Proof.
  split.
  - destruct
      (assertQueue_flags_of_the_recipe (Sample.env Sample.broker)
         (DurableExclusiveInstance Sample.setting (Some "orders")) empty_world)
      as (calls & I & D & _ & F).
    exists calls. split; [exact I|]. split.
    + exact (D eq_refl).
    + exact (F eq_refl eq_refl).
  - destruct
      (assertQueue_flags_of_the_recipe (Sample.env Sample.broker)
         (ExchangeTemporarySubscriberInstance Sample.events) empty_world)
      as (calls & I & _ & T & F).
    exists calls. split; [exact I|]. split.
    + exact (T eq_refl).
    + exact (F eq_refl eq_refl).
Defined.

(** ** The binds of the routing keys *)

Lemma takes_routing_keys_binding (r : Recipe) (routingKeys : list string) :
  takes_routing_keys r = Some routingKeys ->
  exists exchange, binding r = Some (exchange, routingKeys).
Proof.
  destruct r; simpl; intros [= <-]; eexists; reflexivity.
Qed.

(** C5.  For a call of a factory that takes routing keys, once the
    declaration has succeeded: the calls are the build, the declaration
    and then one [bindQueue] per routing key, in order, each with the name
    the broker answered with, the name of the exchange and that key, so as
    many binds as keys; if one of the binds is refused the call rejects
    with the binding text in front of the cause of a refused bind, and no
    queue is resolved; if none is refused the queue is resolved. *)
Theorem one_bind_per_routing_key
    (E : Env) (r : Recipe) (w : World) (routingKeys : list string)
    (queueReply : AssertQueueReply) :
  takes_routing_keys r = Some routingKeys ->
  passes_validation r = true ->
  build_outcome E r w = Fulfilled tt ->
  assert_outcome E r w = Fulfilled queueReply ->
  exists exchange calls,
    binding r = Some (exchange, routingKeys) /\
    issues (run E r) w calls /\
    filter is_bindQueue calls =
      map (CallBindQueue (Some (queue queueReply)) (exchange_name exchange))
        routingKeys /\
    length (filter is_bindQueue calls) = length routingKeys /\
    BrokerChannel.name (asserted E r queueReply) = Some (queue queueReply) /\
    let replies :=
      bind_replies (transport E) (after_assert E r w)
        (Some (queue queueReply)) (exchange_name exchange) routingKeys in
    ((exists e, In (Thrown e) replies) ->
     (forall q, fst (run E r w) <> Resolved q) /\
     exists e',
       In (Thrown e') replies /\
       fst (run E r w) =
         Rejected
           (Str (FAILED_BINDING_QUEUE_AND_EXCHANGE (constant E) +++ e')) /\
       announces (constant E) Bind
         (Str (FAILED_BINDING_QUEUE_AND_EXCHANGE (constant E) +++ e')) = true)
    /\
    ((forall e, ~ In (Thrown e) replies) ->
     fst (run E r w) = Resolved (asserted E r queueReply)).
Proof.
  intros K V B A.
  destruct (takes_routing_keys_binding r routingKeys K) as [exchange Bd].
  pose proof (run_asserted E r w queueReply V B A) as S.
  rewrite Bd in S. destruct S as [F I].
  exists exchange. eexists. split; [exact Bd|]. split; [exact I|].
  split; [|split; [|split; [|split]]].
  - simpl. apply filter_bindQueue_binds.
  - simpl. rewrite filter_bindQueue_binds. apply length_map.
  - reflexivity.
  - intros [e He].
    destruct (Promise_all_rejects _ e He) as [e' P].
    rewrite P in F. split.
    + intros q. rewrite F. discriminate.
    + exists e'. split; [now apply Promise_all_thrown_in|].
      split; [exact F | apply prefix_app].
  - intros N. destruct (Promise_all_fulfilled _ N) as [l P].
    now rewrite P in F.
Qed.

Lemma one_bind_per_routing_key_witness :
  exists exchange calls,
    issues (run (Sample.env (Sample.refusing_bind "deleted"))
              (IndividualExchangeSubscriberInstance Sample.events
                 (Some "audit") (Some ["created"; "deleted"; "renamed"])))
      empty_world calls /\
    filter is_bindQueue calls =
      map (CallBindQueue (Some "audit") (exchange_name exchange))
        ["created"; "deleted"; "renamed"] /\
    forall q,
      fst (run (Sample.env (Sample.refusing_bind "deleted"))
             (IndividualExchangeSubscriberInstance Sample.events
                (Some "audit") (Some ["created"; "deleted"; "renamed"]))
             empty_world) <> Resolved q.
Proof.
  destruct
    (one_bind_per_routing_key (Sample.env (Sample.refusing_bind "deleted"))
       (IndividualExchangeSubscriberInstance Sample.events (Some "audit")
          (Some ["created"; "deleted"; "renamed"]))
       empty_world ["created"; "deleted"; "renamed"]
       {| queue := "audit"; messageCount := 0; consumerCount := 0 |}
       eq_refl eq_refl eq_refl eq_refl)
    as (exchange & calls & _ & I & F & _ & _ & Rej & _).
  exists exchange, calls. split; [exact I|]. split; [exact F|].
  apply Rej. exists (Js.Error "NOT_FOUND"). simpl. right. left. reflexivity.
Defined.

(** ** Consuming *)

(** C6.  A delivery on which [handleMessage] throws: the callback returns
    normally, and what it leaves behind is the world the listener left
    with one more emitted event, the consumer-error event carrying the
    thrown value. The trace is the listener's, so the callback itself adds
    no call, and no [ack] or [nack] in particular.  The deliveries that
    follow are dispatched to the same callback from there. *)
Theorem handleMessage_throw_is_emitted_once
    (E : Env) (this : Queue.t) (messageListener : MessageListener)
    (ack : Message -> M unit) (msg : Message) (rest : list Message)
    (w w1 w2 : World) (e : Js.Value) :
  setCurrentMessage messageListener msg w = (Fulfilled tt, w1) ->
  handleMessage messageListener msg ack w1 = (Thrown e, w2) ->
  let w' :=
    add_event w2 (MESSAGE_CONSUMER_ERROR_EVENT_NAME (constant E)) e in
  Queue.onMessage E this messageListener ack msg w = (Fulfilled tt, w') /\
  emitted w' =
    (emitted w2 ++ [(MESSAGE_CONSUMER_ERROR_EVENT_NAME (constant E), e)])%list /\
  trace w' = trace w2 /\
  Channel.deliver (Queue.onMessage E this messageListener ack) (msg :: rest) w =
  Channel.deliver (Queue.onMessage E this messageListener ack) rest w'.
Proof.
  intros S H w'.
  assert (O : Queue.onMessage E this messageListener ack msg w =
              (Fulfilled tt, w')).
  { unfold Queue.onMessage, bind. rewrite S, H. reflexivity. }
  split; [exact O|]. split; [reflexivity|]. split; [reflexivity|].
  simpl. unfold bind at 1. rewrite O. reflexivity.
Qed.

(** Three deliveries, the second of which the listener chokes on: one
    event, the two others acknowledged by the listener, nothing from the
    queue. *)
Lemma handleMessage_throw_is_emitted_once_witness :
  Channel.deliver
    (Queue.onMessage (Sample.env Sample.broker)
       (Queue.new (Sample.env Sample.broker) (Some Sample.setting) None
          (Some "orders"))
       (Sample.listener 2) (fun m => Channel.ack m None))
    [Sample.delivery 2; Sample.delivery 3]
    empty_world =
  (Fulfilled tt,
   {| trace := [CallAck (Sample.delivery 3) None];
      emitted := [("MessageConsumerError", Js.Error "malformed")];
      debug_log := [] |}).
Proof.
  pose proof
    (handleMessage_throw_is_emitted_once (Sample.env Sample.broker)
       (Queue.new (Sample.env Sample.broker) (Some Sample.setting) None
          (Some "orders"))
       (Sample.listener 2) (fun m => Channel.ack m None)
       (Sample.delivery 2) [Sample.delivery 3]
       empty_world empty_world empty_world (Js.Error "malformed")
       eq_refl eq_refl) as H.
  destruct H as (_ & _ & _ & D).
  rewrite D. reflexivity.
Defined.

(** C9.  The callback starts with [setCurrentMessage] on the delivery,
    outside the guard: when it throws, the callback ends with that
    exception, in the world the listener left, with [handleMessage] not
    called and nothing emitted; when it returns, [handleMessage] runs on
    the same delivery in the world it left, and only an exception of
    [handleMessage] is turned into an event. *)
Theorem setCurrentMessage_is_outside_the_guard
    (E : Env) (this : Queue.t) (messageListener : MessageListener)
    (ack : Message -> M unit) (msg : Message) (w w1 : World) :
  (forall e,
     setCurrentMessage messageListener msg w = (Thrown e, w1) ->
     Queue.onMessage E this messageListener ack msg w = (Thrown e, w1) /\
     forall rest,
       Channel.deliver (Queue.onMessage E this messageListener ack)
         (msg :: rest) w = (Thrown e, w1)) /\
  (forall u,
     setCurrentMessage messageListener msg w = (Fulfilled u, w1) ->
     Queue.onMessage E this messageListener ack msg w =
       match handleMessage messageListener msg ack w1 with
       | (Fulfilled v, w2) => (Fulfilled v, w2)
       | (Thrown e, w2) =>
           (Fulfilled tt,
            add_event w2 (MESSAGE_CONSUMER_ERROR_EVENT_NAME (constant E)) e)
       end).
Proof.
  split.
  - intros e S.
    assert (O : Queue.onMessage E this messageListener ack msg w =
                (Thrown e, w1))
      by (unfold Queue.onMessage, bind; now rewrite S).
    split; [exact O|]. intros rest. simpl. unfold bind at 1. now rewrite O.
  - intros u S. unfold Queue.onMessage, bind. rewrite S.
    destruct (handleMessage messageListener msg ack w1) as [[v|e] w2];
      reflexivity.
Qed.

Lemma setCurrentMessage_is_outside_the_guard_witness :
  Channel.deliver
    (Queue.onMessage (Sample.env Sample.broker)
       (Queue.new (Sample.env Sample.broker) (Some Sample.setting) None
          (Some "orders"))
       Sample.broken_listener (fun m => Channel.ack m None))
    [Sample.delivery 1; Sample.delivery 2]
    empty_world =
  (Thrown (Js.Error "no slot"), empty_world).
Proof.
  apply (setCurrentMessage_is_outside_the_guard (Sample.env Sample.broker)
           (Queue.new (Sample.env Sample.broker) (Some Sample.setting) None
              (Some "orders"))
           Sample.broken_listener (fun m => Channel.ack m None)
           (Sample.delivery 1) empty_world empty_world).
  reflexivity.
Defined.

(** ** Acknowledging *)

(** C7.  [ack(message)] adds one call to the trace, the [ack] of that
    message with no [allUpTo] argument, which the transport takes as
    false; [nack(message, requeue)] adds one call, the [nack] of that
    message with [allUpTo] false and the caller's [requeue].  Neither
    touches anything else. *)
Theorem ack_and_nack_are_single_message
    (this : Queue.t) (message : Message) (requeue : bool) (w : World) :
  Queue.ack this message w = (tt, add_calls w [CallAck message None]) /\
  Channel.multiple None = false /\
  Queue.nack this message requeue w =
    (tt, add_calls w [CallNack message false requeue]) /\
  issues (Queue.ack this message) w [CallAck message None] /\
  issues (Queue.nack this message requeue) w [CallNack message false requeue].
Proof. repeat split. Qed.

(** ** Two names for one recipe *)

(** C8.  [durableInstance] and [durableNonExclusiveNotAutoDeletedInstance]
    settle alike, resolved queue or rejection text, make the same calls
    on the transport with the same arguments, and emit the same events,
    for every setting, name, double and starting world.  Every
    [assertQueue] among those calls carries durable true, exclusive
    false, autoDelete false, and once the name has passed the test and
    the build has succeeded there is exactly one, under the name asked
    for; when the broker answers it, both resolve the queue under the
    name in the answer.  (They differ in one [debugError] line, when the
    build fails.) *)
Theorem durableInstance_same_as_durableNonExclusiveNotAutoDeletedInstance
    (E : Env) (connectionSetting : ConnectionSetting) (name : Name)
    (w : World) :
  let a := Queue.durableInstance E connectionSetting name w in
  let b :=
    Queue.durableNonExclusiveNotAutoDeletedInstance E connectionSetting
      name w in
  let options :=
    {| durable := true; exclusive := false; autoDelete := false |} in
  fst a = fst b /\
  trace (snd a) = trace (snd b) /\
  emitted (snd a) = emitted (snd b) /\
  exists calls,
    trace (snd a) = (trace w ++ calls)%list /\
    trace (snd b) = (trace w ++ calls)%list /\
    (forall name' options',
       In (CallAssertQueue name' options') calls -> options' = options) /\
    (Queue.name_is_null_or_empty name = false ->
     build_reply (transport E) (trace w) (Some connectionSetting) None name =
       Fulfilled tt ->
     filter is_assertQueue calls = [CallAssertQueue name options] /\
     forall queueReply,
       assertQueue_reply (transport E)
         (trace w ++ [CallBuild (Some connectionSetting) None name])
         name options = Fulfilled queueReply ->
       exists q,
         fst a = Resolved q /\ fst b = Resolved q /\
         BrokerChannel.name q = Some (queue queueReply) /\
         BrokerChannel.isDurable q = true).
Proof.
  intros a b options. subst a b options.
  unfold Queue.durableInstance, Queue.durableNonExclusiveNotAutoDeletedInstance.
  destruct (Queue.name_is_null_or_empty name).
  - do 3 (split; [reflexivity|]). exists []. simpl.
    rewrite app_nil_r. do 2 (split; [reflexivity|]).
    split; [intros ? ? []|discriminate].
  - unfold bind. rewrite build_run.
    destruct (build_reply _ _ _ _ _) as [[]|e]; simpl.
    + rewrite constructQueueAssertion_run. simpl.
      destruct (assertQueue_reply _ _ _ _) as [queueReply|e]; simpl;
        (do 3 (split; [reflexivity|]));
        eexists; rewrite <- app_assoc;
        (do 2 (split; [reflexivity|]));
        (split; [intros n o [H|[H|[]]]; [discriminate H|];
                 now injection H as _ <-|]);
        intros _ _; (split; [reflexivity|]); intros r' H.
      * injection H as <-. eexists. repeat split.
      * discriminate H.
    + do 3 (split; [reflexivity|]). eexists.
      do 2 (split; [reflexivity|]).
      split; [intros n o [H|[]]; discriminate H|].
      intros _ H. discriminate H.
Qed.

Lemma durableInstance_same_as_durableNonExclusiveNotAutoDeletedInstance_witness :
  exists calls q,
    trace (snd (Queue.durableInstance (Sample.env Sample.broker)
                  Sample.setting (Some "orders") empty_world)) = calls /\
    trace (snd (Queue.durableNonExclusiveNotAutoDeletedInstance
                  (Sample.env Sample.broker) Sample.setting (Some "orders")
                  empty_world)) = calls /\
    filter is_assertQueue calls =
      [CallAssertQueue (Some "orders")
         {| durable := true; exclusive := false; autoDelete := false |}] /\
    fst (Queue.durableInstance (Sample.env Sample.broker) Sample.setting
           (Some "orders") empty_world) = Resolved q /\
    fst (Queue.durableNonExclusiveNotAutoDeletedInstance
           (Sample.env Sample.broker) Sample.setting (Some "orders")
           empty_world) = Resolved q /\
    BrokerChannel.name q = Some "orders".
Proof.
  destruct
    (durableInstance_same_as_durableNonExclusiveNotAutoDeletedInstance
       (Sample.env Sample.broker) Sample.setting (Some "orders") empty_world)
    as (_ & _ & _ & calls & Ta & Tb & _ & S).
  destruct (S eq_refl eq_refl) as (F & R).
  destruct (R {| queue := "orders"; messageCount := 0; consumerCount := 0 |}
              eq_refl)
    as (q & Ra & Rb & N & _).
  exists calls, q.
  split; [exact Ta|]. split; [exact Tb|]. split; [exact F|].
  split; [exact Ra|]. split; [exact Rb | exact N].
Defined.

(** Where the two differ: the build failure is logged by the first only. *)
Example durableInstance_logs_build_failure :
  debug_log (snd (Queue.durableInstance (Sample.env Sample.unreachable)
                    Sample.setting (Some "orders") empty_world)) =
    [[Str "Queue build throws an error: Error: connect ECONNREFUSED"]] /\
  debug_log (snd (Queue.durableNonExclusiveNotAutoDeletedInstance
                    (Sample.env Sample.unreachable)
                    Sample.setting (Some "orders") empty_world)) = [].
Proof. split; reflexivity. Qed.

(** ** The durability flag when the declaration fails *)

(** C10.  [constructQueueAssertion] sends the declaration from an object
    whose flag is already the requested one.  When the broker refuses,
    the promise is rejected with an [Error] made of the declaration text
    and the cause, and the object is left with the requested flag and the
    name it had; the name changes only when the broker answers. *)
Theorem constructQueueAssertion_failure_keeps_the_new_flag
    (E : Env) (this : Queue.t) (isDurable isExclusive isAutoDeleted : bool)
    (w : World) (e : Js.Value) :
  assertQueue_reply (transport E) (trace w) (BrokerChannel.name this)
    {| durable := isDurable; exclusive := isExclusive;
       autoDelete := isAutoDeleted |} = Thrown e ->
  exists this',
    Queue.constructQueueAssertion E this isDurable isExclusive isAutoDeleted w =
      (this', Thrown (Js.Error (FAILED_ASSERT_QUEUE (constant E) +++ e)),
       add_calls w
         [CallAssertQueue (BrokerChannel.name this)
            {| durable := isDurable; exclusive := isExclusive;
               autoDelete := isAutoDeleted |}]) /\
    BrokerChannel.isDurable this' = isDurable /\
    BrokerChannel.name this' = BrokerChannel.name this /\
    this' = BrokerChannel.setDurable this isDurable.
Proof.
  intros A. rewrite constructQueueAssertion_run, A.
  eexists. split; [reflexivity|]. repeat split.
Qed.

(** A queue object that starts out not durable, asked to become durable
    under a broker that refuses: the flag is true afterwards, the name is
    still the one asked for. *)
Lemma constructQueueAssertion_failure_keeps_the_new_flag_witness :
  exists this',
    fst (Queue.constructQueueAssertion (Sample.env Sample.refusing_assert)
           (Queue.new (Sample.env Sample.refusing_assert)
              (Some Sample.setting) None (Some "orders"))
           true false false empty_world) =
      (this',
       Thrown (Js.Error "Failed to assert the queue: Error: PRECONDITION_FAILED")) /\
    BrokerChannel.isDurable
      (Queue.new (Sample.env Sample.refusing_assert)
         (Some Sample.setting) None (Some "orders")) = false /\
    BrokerChannel.isDurable this' = true /\
    BrokerChannel.name this' = Some "orders".
Proof.
  destruct
    (constructQueueAssertion_failure_keeps_the_new_flag
       (Sample.env Sample.refusing_assert)
       (Queue.new (Sample.env Sample.refusing_assert)
          (Some Sample.setting) None (Some "orders"))
       true false false empty_world (Js.Error "PRECONDITION_FAILED") eq_refl)
    as (this' & R & D & N & _).
  exists this'. split; [now rewrite R|].
  split; [reflexivity|]. split; [exact D | exact N].
Defined.

(** On success the flag is the requested one too, and the name is the
    broker's. *)
Lemma constructQueueAssertion_success (E : Env) (this : Queue.t)
    (isDurable isExclusive isAutoDeleted : bool) (w : World)
    (queueReply : AssertQueueReply) :
  assertQueue_reply (transport E) (trace w) (BrokerChannel.name this)
    {| durable := isDurable; exclusive := isExclusive;
       autoDelete := isAutoDeleted |} = Fulfilled queueReply ->
  fst (Queue.constructQueueAssertion E this isDurable isExclusive
         isAutoDeleted w) =
  (BrokerChannel.setName (BrokerChannel.setDurable this isDurable)
     (queue queueReply), Fulfilled tt).
Proof. intros A. now rewrite constructQueueAssertion_run, A. Qed.

(** ** A run from construction to acknowledgment *)

(** [durableInstance(setting, "orders")], then [consume], then one
    delivery that the listener acknowledges through [Queue.ack]: four
    calls on the transport, the last one the single-message [ack] of that
    delivery. *)
Example durable_queue_consume_ack :
  let E := Sample.env Sample.broker in
  let program :=
    s <- Queue.durableInstance E Sample.setting (Some "orders") ;;
    match s with
    | Resolved q =>
        Queue.consume E q (Sample.listener 0) (Queue.ack q) None ;;
        Channel.deliver
          (Queue.onMessage E q (Sample.listener 0) (Queue.ack q))
          [Sample.delivery 1]
    | Rejected e => ret (Thrown e)
    end in
  program empty_world =
  (Fulfilled tt,
   {| trace :=
        [CallBuild (Some Sample.setting) None (Some "orders");
         CallAssertQueue (Some "orders")
           {| durable := true; exclusive := false; autoDelete := false |};
         CallConsume (Some "orders") None;
         CallAck (Sample.delivery 1) None];
      emitted := [];
      debug_log := [] |}).
Proof. reflexivity. Qed.

(** * Further properties of the factories *)

(** ** Failures, stage by stage *)

(** X1.  Each of the six factories that test [name] rejects a null or
    empty name with the name-required text and hands back the world it
    was given: no object built on the transport, no call, no event, no
    debug line, whatever the other arguments. *)
Theorem missing_name_rejected_in_an_untouched_world
    (E : Env) (connectionSetting : ConnectionSetting) (exchange : Exchange)
    (name : Name) (routingKeys : option (list string))
    (isDurable isExclusive isAutoDeleted : option bool) (w : World) :
  Queue.name_is_null_or_empty name = true ->
  let rejected :=
    (Rejected (A := Queue.t)
       (Str (INDIVIDUAL_SUBSCRIBER_MUST_HAS_NAME (constant E))), w) in
  Queue.customInstanceUsingConnectionSetting E connectionSetting name
    isDurable isExclusive isAutoDeleted w = rejected /\
  Queue.customInstanceUsingExchange E exchange name routingKeys
    isDurable isExclusive isAutoDeleted w = rejected /\
  Queue.durableInstance E connectionSetting name w = rejected /\
  Queue.durableExclusiveInstance E connectionSetting name w = rejected /\
  Queue.durableNonExclusiveNotAutoDeletedInstance E connectionSetting name w =
    rejected /\
  Queue.individualExchangeSubscriberInstance E exchange name routingKeys w =
    rejected.
Proof.
  intros H rejected. subst rejected.
  unfold Queue.customInstanceUsingConnectionSetting,
    Queue.customInstanceUsingExchange, Queue.durableInstance,
    Queue.durableExclusiveInstance,
    Queue.durableNonExclusiveNotAutoDeletedInstance,
    Queue.individualExchangeSubscriberInstance.
  cbv zeta. rewrite H. repeat split.
Qed.

Lemma missing_name_rejected_in_an_untouched_world_witness :
  Queue.durableExclusiveInstance (Sample.env Sample.broker) Sample.setting
    None empty_world =
    (Rejected (Str "An individual subscriber must be named."), empty_world) /\
  Queue.customInstanceUsingExchange (Sample.env Sample.broker) Sample.events
    (Some EmptyString) (Some ["created"]) None None None empty_world =
    (Rejected (Str "An individual subscriber must be named."), empty_world).
Proof.
  split.
  - exact (proj1 (proj2 (proj2 (proj2
      (missing_name_rejected_in_an_untouched_world
         (Sample.env Sample.broker) Sample.setting Sample.events None None
         None None None empty_world eq_refl))))).
  - exact (proj1 (proj2
      (missing_name_rejected_in_an_untouched_world
         (Sample.env Sample.broker) Sample.setting Sample.events
         (Some EmptyString) (Some ["created"]) None None None empty_world
         eq_refl))).
Defined.

Lemma run_emitted (E : Env) (r : Recipe) (w : World) :
  emitted (snd (run E r w)) = emitted w.
Proof.
  destruct r; stages; cbv zeta;
    try (destruct (Queue.name_is_null_or_empty name); [reflexivity|]);
    simpl; repeat (split_reply; stages; simpl); reflexivity.
Qed.

(** X2.  A factory call past validation whose build fails: the rejection
    is the build text in front of the cause, the build is the only call
    made, so nothing is declared or bound on a channel that did not open,
    and no event is emitted. *)
Theorem build_failure_stops_the_pipeline
    (E : Env) (r : Recipe) (w : World) (e : Js.Value) :
  passes_validation r = true ->
  build_outcome E r w = Thrown e ->
  fst (run E r w) =
    Rejected (Str (QUEUE_BUILD_THROWS_ERROR (constant E) +++ e)) /\
  issues (run E r) w [build_call E r] /\
  emitted (snd (run E r w)) = emitted w.
Proof.
  intros V B. destruct (run_build_failure E r w e V B) as [F I].
  split; [exact F|]. split; [exact I | apply run_emitted].
Qed.

Lemma build_failure_stops_the_pipeline_witness :
  fst (run (Sample.env Sample.unreachable)
         (ExchangeTemporaryDirectOrTopicSubscriberInstance Sample.events
            ["created"; "deleted"]) empty_world) =
    Rejected (Str "Queue build throws an error: Error: connect ECONNREFUSED") /\
  trace (snd (run (Sample.env Sample.unreachable)
                (ExchangeTemporaryDirectOrTopicSubscriberInstance
                   Sample.events ["created"; "deleted"]) empty_world)) =
    [CallBuild None (Some Sample.events) (Some EmptyString)].
Proof.
  destruct
    (build_failure_stops_the_pipeline (Sample.env Sample.unreachable)
       (ExchangeTemporaryDirectOrTopicSubscriberInstance Sample.events
          ["created"; "deleted"])
       empty_world (Js.Error "connect ECONNREFUSED") eq_refl eq_refl)
    as (F & I & _).
  split; [exact F | exact I].
Defined.

(** X3.  A factory call whose declaration is refused: the build and the
    declaration are the only calls, so no routing key is bound to a queue
    the broker did not accept; the rejection is the text of the factory's
    handler in front of the error of [constructQueueAssertion], which
    itself carries the declaration text and the cause; no event is
    emitted. *)
Theorem refused_declaration_binds_nothing
    (E : Env) (r : Recipe) (w : World) (e : Js.Value) :
  passes_validation r = true ->
  build_outcome E r w = Fulfilled tt ->
  assert_outcome E r w = Thrown e ->
  exists calls,
    issues (run E r) w calls /\
    calls = [build_call E r; assert_call E r] /\
    filter is_bindQueue calls = [] /\
    fst (run E r w) =
      Rejected
        (Str (assertion_handler_text (constant E) r +++
              Js.Error (FAILED_ASSERT_QUEUE (constant E) +++ e))) /\
    emitted (snd (run E r w)) = emitted w.
Proof.
  intros V B A. destruct (run_assert_failure E r w e V B A) as [F I].
  eexists. split; [exact I|]. split; [reflexivity|].
  split; [reflexivity|]. split; [exact F | apply run_emitted].
Qed.

Lemma refused_declaration_binds_nothing_witness :
  exists calls,
    issues (run (Sample.env Sample.refusing_assert)
              (IndividualExchangeSubscriberInstance Sample.events
                 (Some "audit") (Some ["created"; "deleted"])))
      empty_world calls /\
    filter is_bindQueue calls = [] /\
    fst (run (Sample.env Sample.refusing_assert)
           (IndividualExchangeSubscriberInstance Sample.events
              (Some "audit") (Some ["created"; "deleted"])) empty_world) =
      Rejected
        (Str "Failed to bind the queue and the exchange: Error: Failed to assert the queue: Error: PRECONDITION_FAILED").
Proof.
  destruct
    (refused_declaration_binds_nothing (Sample.env Sample.refusing_assert)
       (IndividualExchangeSubscriberInstance Sample.events (Some "audit")
          (Some ["created"; "deleted"]))
       empty_world (Js.Error "PRECONDITION_FAILED") eq_refl eq_refl eq_refl)
    as (calls & I & _ & N & F & _).
  exists calls. split; [exact I|]. split; [exact N | exact F].
Defined.

(** ** The fan-out factories *)

(** X4.  A factory call that binds the single empty routing key, as
    [exchangeTemporarySubscriberInstance] and
    [exchangeNamedSubscriberInstance] do: once the declaration has
    succeeded there is one bind, of the broker's name to the exchange with
    the empty key; the queue is resolved when the broker accepts it, and
    when it refuses the rejection is the binding text in front of the
    cause of that very bind. *)
Theorem fanout_binds_the_empty_key_once
    (E : Env) (r : Recipe) (exchange : Exchange) (w : World)
    (queueReply : AssertQueueReply) :
  binding r = Some (exchange, [EmptyString]) ->
  passes_validation r = true ->
  build_outcome E r w = Fulfilled tt ->
  assert_outcome E r w = Fulfilled queueReply ->
  issues (run E r) w
    [build_call E r; assert_call E r;
     CallBindQueue (Some (queue queueReply)) (exchange_name exchange)
       EmptyString] /\
  fst (run E r w) =
    match bindQueue_reply (transport E) (after_assert E r w)
            (Some (queue queueReply)) (exchange_name exchange) EmptyString with
    | Fulfilled _ => Resolved (asserted E r queueReply)
    | Thrown e =>
        Rejected (Str (FAILED_BINDING_QUEUE_AND_EXCHANGE (constant E) +++ e))
    end.
Proof.
  intros Bd V B A.
  pose proof (run_asserted E r w queueReply V B A) as S.
  rewrite Bd in S. destruct S as [F I].
  split; [exact I|]. rewrite F. simpl.
  destruct (bindQueue_reply _ _ _ _ _); reflexivity.
Qed.

Lemma fanout_binds_the_empty_key_once_witness :
  issues (run (Sample.env (Sample.refusing_bind EmptyString))
            (ExchangeNamedSubscriberInstance Sample.events (Some "audit")))
    empty_world
    [CallBuild None (Some Sample.events) (Some "audit");
     CallAssertQueue (Some "audit")
       {| durable := true; exclusive := false; autoDelete := false |};
     CallBindQueue (Some "audit") "events" EmptyString] /\
  fst (run (Sample.env (Sample.refusing_bind EmptyString))
         (ExchangeNamedSubscriberInstance Sample.events (Some "audit"))
         empty_world) =
    Rejected (Str "Failed to bind the queue and the exchange: Error: NOT_FOUND").
Proof.
  exact
    (fanout_binds_the_empty_key_once
       (Sample.env (Sample.refusing_bind EmptyString))
       (ExchangeNamedSubscriberInstance Sample.events (Some "audit"))
       Sample.events empty_world
       {| queue := "audit"; messageCount := 0; consumerCount := 0 |}
       eq_refl eq_refl eq_refl eq_refl).
Defined.

(** ** The order of the stages *)

(** X5.  The calls of a factory call, whatever the transport answers,
    are an initial part of build, declaration, binds: nothing at all; or
    the build alone; or the build and the declaration; or, for a factory
    with a binding stage, both followed by all the binds of its routing
    keys under the name the broker answered with.  So nothing is declared
    before the build, nothing is bound before the declaration, and the
    calls made before the factory was called are kept. *)
Theorem factory_calls_follow_the_stages (E : Env) (r : Recipe) (w : World) :
  exists calls,
    issues (run E r) w calls /\
    (calls = [] \/
     calls = [build_call E r] \/
     calls = [build_call E r; assert_call E r] \/
     exists queueReply exchange routingKeys,
       assert_outcome E r w = Fulfilled queueReply /\
       binding r = Some (exchange, routingKeys) /\
       calls =
         build_call E r :: assert_call E r
         :: map (CallBindQueue (Some (queue queueReply))
                   (exchange_name exchange)) routingKeys).
Proof.
  destruct (passes_validation r) eqn:V.
  2:{ exists []. split; [|now left].
      unfold issues. rewrite (run_validation_failure E r w V).
      simpl. now rewrite app_nil_r. }
  destruct (build_outcome_cases E r w) as [B|[e B]].
  2:{ destruct (run_build_failure E r w e V B) as [_ I].
      eexists. split; [exact I|]. right. now left. }
  destruct (assert_outcome E r w) as [queueReply|e] eqn:A.
  2:{ destruct (run_assert_failure E r w e V B A) as [_ I].
      eexists. split; [exact I|]. right. right. now left. }
  pose proof (run_asserted E r w queueReply V B A) as S.
  destruct (binding r) as [[exchange routingKeys]|] eqn:Bd;
    destruct S as [_ I]; eexists; (split; [exact I|]).
  - right. right. right. exists queueReply, exchange, routingKeys.
    repeat split.
  - right. right. now left.
Qed.

(** ** What a resolved queue is *)

Lemma run_resolved_silent (E : Env) (r : Recipe) (w : World) (q : Queue.t) :
  fst (run E r w) = Resolved q ->
  debug_log (snd (run E r w)) = debug_log w.
Proof.
  destruct r; stages; cbv zeta;
    try (destruct (Queue.name_is_null_or_empty name); [discriminate|]);
    simpl; repeat (split_reply; stages; simpl);
    intros H; try discriminate H; reflexivity.
Qed.

(** A resolved queue is the constructed object after a successful
    declaration. *)
Lemma run_resolved (E : Env) (r : Recipe) (w : World) (q : Queue.t) :
  fst (run E r w) = Resolved q ->
  exists queueReply,
    passes_validation r = true /\
    build_outcome E r w = Fulfilled tt /\
    assert_outcome E r w = Fulfilled queueReply /\
    q = asserted E r queueReply.
Proof.
  intros R.
  destruct (passes_validation r) eqn:V.
  2:{ rewrite (run_validation_failure E r w V) in R. discriminate. }
  destruct (build_outcome_cases E r w) as [B|[e B]].
  2:{ destruct (run_build_failure E r w e V B) as [F _].
      rewrite R in F. discriminate. }
  destruct (assert_outcome E r w) as [queueReply|e] eqn:A.
  2:{ destruct (run_assert_failure E r w e V B A) as [F _].
      rewrite R in F. discriminate. }
  exists queueReply. repeat (split; [reflexivity || assumption|]).
  pose proof (run_asserted E r w queueReply V B A) as S.
  destruct (binding r) as [[exchange routingKeys]|];
    destruct S as [F _]; rewrite R in F.
  - destruct (Promise_all _); [|discriminate]. now injection F.
  - now injection F.
Qed.

(** X6.  When a factory call resolves a queue, for every factory: the
    call passed validation, the build and the declaration succeeded, and
    the queue is the object the factory made, with the same connection
    setting or shared channel, renamed to the name in the broker's answer
    and with its durability flag equal to the [durable] flag that was
    declared.  No event was emitted and no debug line written. *)
Theorem resolved_queue_mirrors_the_declaration
    (E : Env) (r : Recipe) (w : World) (q : Queue.t) :
  fst (run E r w) = Resolved q ->
  exists queueReply,
    passes_validation r = true /\
    build_outcome E r w = Fulfilled tt /\
    assert_outcome E r w = Fulfilled queueReply /\
    BrokerChannel.name q = Some (queue queueReply) /\
    BrokerChannel.isDurable q = durable (declared r) /\
    BrokerChannel.connectionSetting q =
      BrokerChannel.connectionSetting (constructed E r) /\
    BrokerChannel.brokerChannel q =
      BrokerChannel.brokerChannel (constructed E r) /\
    emitted (snd (run E r w)) = emitted w /\
    debug_log (snd (run E r w)) = debug_log w.
Proof.
  intros R.
  destruct (run_resolved E r w q R) as (queueReply & V & B & A & ->).
  exists queueReply.
  split; [exact V|]. split; [exact B|]. split; [exact A|].
  do 4 (split; [reflexivity|]).
  split; [apply run_emitted|].
  now apply run_resolved_silent with (q := asserted E r queueReply).
Qed.

Lemma resolved_queue_mirrors_the_declaration_witness :
  exists queueReply,
    assert_outcome (Sample.env Sample.broker)
      (ExchangeTemporarySubscriberInstance Sample.events) empty_world =
      Fulfilled queueReply /\
    queue queueReply = "amq.gen-1" /\
    BrokerChannel.isDurable
      (Queue.new (Sample.env Sample.broker) None (Some Sample.events)
         (Some EmptyString)) = false /\
    debug_log (snd (run (Sample.env Sample.broker)
                      (ExchangeTemporarySubscriberInstance Sample.events)
                      empty_world)) = [].
Proof.
  destruct
    (resolved_queue_mirrors_the_declaration (Sample.env Sample.broker)
       (ExchangeTemporarySubscriberInstance Sample.events) empty_world
       _ eq_refl)
    as (queueReply & _ & _ & A & _ & _ & _ & _ & _ & D).
  exists queueReply. split; [exact A|].
  split; [now injection A as <-|]. split; [reflexivity | exact D].
Defined.

(** ** Factories that coincide *)

(** X7.  [customInstanceUsingExchange] with its three flags left out is
    [individualExchangeSubscriberInstance] to the caller: for every
    exchange, name, routing keys (left out or not), transport and world,
    the same settlement, the same calls and the same events. *)
Theorem customInstanceUsingExchange_defaults_to_individual_subscriber
    (E : Env) (exchange : Exchange) (name : Name)
    (routingKeys : option (list string)) (w : World) :
  let a :=
    Queue.customInstanceUsingExchange E exchange name routingKeys
      None None None w in
  let b :=
    Queue.individualExchangeSubscriberInstance E exchange name routingKeys w in
  fst a = fst b /\
  trace (snd a) = trace (snd b) /\
  emitted (snd a) = emitted (snd b).
Proof.
  intros a b. subst a b.
  unfold Queue.customInstanceUsingExchange,
    Queue.individualExchangeSubscriberInstance.
  cbv zeta. simpl Queue.default.
  destruct (Queue.name_is_null_or_empty name); [repeat split|].
  stages. simpl.
  repeat (split_reply; stages; simpl); repeat split.
Qed.

(** X8.  [exchangeTemporarySubscriberInstance] is
    [exchangeTemporaryDirectOrTopicSubscriberInstance] at the one empty
    routing key: the same settlement and the same world, debug lines
    included. *)
Theorem temporary_subscriber_is_direct_or_topic_at_the_empty_key
    (E : Env) (exchange : Exchange) (w : World) :
  Queue.exchangeTemporarySubscriberInstance E exchange w =
  Queue.exchangeTemporaryDirectOrTopicSubscriberInstance E exchange
    [EmptyString] w.
Proof.
  unfold Queue.exchangeTemporarySubscriberInstance,
    Queue.exchangeTemporaryDirectOrTopicSubscriberInstance.
  stages. simpl.
  repeat (split_reply; stages; simpl); reflexivity.
Qed.

(** X9.  With a name that is neither null nor empty,
    [exchangeNamedSubscriberInstance] is
    [individualExchangeSubscriberInstance] at the one empty routing key:
    the same settlement and the same world. *)
Theorem named_subscriber_is_individual_subscriber_at_the_empty_key
    (E : Env) (exchange : Exchange) (name : Name) (w : World) :
  Queue.name_is_null_or_empty name = false ->
  Queue.exchangeNamedSubscriberInstance E exchange name w =
  Queue.individualExchangeSubscriberInstance E exchange name
    (Some [EmptyString]) w.
Proof.
  intros N.
  unfold Queue.exchangeNamedSubscriberInstance,
    Queue.individualExchangeSubscriberInstance.
  cbv zeta. rewrite N. simpl Queue.default.
  stages. simpl.
  repeat (split_reply; stages; simpl); reflexivity.
Qed.

Lemma named_subscriber_is_individual_subscriber_at_the_empty_key_witness :
  Queue.exchangeNamedSubscriberInstance (Sample.env Sample.broker)
    Sample.events (Some "audit") empty_world =
  Queue.individualExchangeSubscriberInstance (Sample.env Sample.broker)
    Sample.events (Some "audit") (Some [EmptyString]) empty_world.
Proof.
  exact
    (named_subscriber_is_individual_subscriber_at_the_empty_key
       (Sample.env Sample.broker) Sample.events (Some "audit") empty_world
       eq_refl).
Defined.

(** X10.  [customInstanceUsingConnectionSetting] with its three flags left
    out makes the calls of [durableInstance] and emits the same events.
    When the name passes the test, the build succeeds and the broker
    refuses the declaration sent with durable true, exclusive false,
    autoDelete false, the first rejects with the binding text and the
    second with the declaration text, in front of the same error.  In
    every other case, a missing name, a failed build or an answered
    declaration, the two settle alike. *)
Theorem customInstanceUsingConnectionSetting_defaults_to_durableInstance
    (E : Env) (connectionSetting : ConnectionSetting) (name : Name)
    (w : World) :
  let a :=
    Queue.customInstanceUsingConnectionSetting E connectionSetting name
      None None None w in
  let b := Queue.durableInstance E connectionSetting name w in
  let built :=
    build_reply (transport E) (trace w) (Some connectionSetting) None name in
  let declared_ :=
    assertQueue_reply (transport E)
      (trace w ++ [CallBuild (Some connectionSetting) None name]) name
      {| durable := true; exclusive := false; autoDelete := false |} in
  trace (snd a) = trace (snd b) /\
  emitted (snd a) = emitted (snd b) /\
  (forall e,
     Queue.name_is_null_or_empty name = false ->
     built = Fulfilled tt ->
     declared_ = Thrown e ->
     fst a =
       Rejected
         (Str (FAILED_BINDING_QUEUE_AND_EXCHANGE (constant E) +++
               Js.Error (FAILED_ASSERT_QUEUE (constant E) +++ e))) /\
     fst b =
       Rejected
         (Str (FAILED_ASSERT_QUEUE (constant E) +++
               Js.Error (FAILED_ASSERT_QUEUE (constant E) +++ e)))) /\
  (Queue.name_is_null_or_empty name = true \/
   (exists e, built = Thrown e) \/
   (exists queueReply, declared_ = Fulfilled queueReply) ->
   fst a = fst b).
Proof.
  intros a b built declared_. subst a b built declared_.
  unfold Queue.customInstanceUsingConnectionSetting, Queue.durableInstance.
  cbv zeta. simpl Queue.default.
  destruct (Queue.name_is_null_or_empty name).
  { do 2 (split; [reflexivity|]). split; [discriminate | reflexivity]. }
  stages. simpl.
  destruct (build_reply _ _ _ _ _) as [[]|e0]; stages; simpl.
  - destruct (assertQueue_reply _ _ _ _) as [queueReply|e0]; simpl;
      (do 2 (split; [reflexivity|])).
    + split; [intros e _ _ H; discriminate H | reflexivity].
    + split.
      * intros e _ _ [= <-]. split; reflexivity.
      * intros [H|[[e H]|[r H]]]; discriminate H.
  - do 2 (split; [reflexivity|]).
    split; [intros e _ H; discriminate H | reflexivity].
Qed.

Lemma customInstanceUsingConnectionSetting_defaults_to_durableInstance_witness :
  fst (Queue.customInstanceUsingConnectionSetting
         (Sample.env Sample.refusing_assert) Sample.setting (Some "orders")
         None None None empty_world) =
    Rejected
      (Str "Failed to bind the queue and the exchange: Error: Failed to assert the queue: Error: PRECONDITION_FAILED") /\
  fst (Queue.durableInstance (Sample.env Sample.refusing_assert)
         Sample.setting (Some "orders") empty_world) =
    Rejected
      (Str "Failed to assert the queue: Error: Failed to assert the queue: Error: PRECONDITION_FAILED").
Proof.
  destruct
    (customInstanceUsingConnectionSetting_defaults_to_durableInstance
       (Sample.env Sample.refusing_assert) Sample.setting (Some "orders")
       empty_world)
    as (_ & _ & R & _).
  exact (R (Js.Error "PRECONDITION_FAILED") eq_refl eq_refl eq_refl).
Defined.

(** ** No routing key *)

(** X11.  A factory that takes routing keys and is given none, an empty
    list or the parameter left out where it has a default: once the
    declaration has succeeded no bind is made and the queue is resolved,
    bound to nothing. *)
Theorem no_routing_key_no_bind
    (E : Env) (r : Recipe) (w : World) (queueReply : AssertQueueReply) :
  takes_routing_keys r = Some [] ->
  passes_validation r = true ->
  build_outcome E r w = Fulfilled tt ->
  assert_outcome E r w = Fulfilled queueReply ->
  fst (run E r w) = Resolved (asserted E r queueReply) /\
  issues (run E r) w [build_call E r; assert_call E r].
Proof.
  intros K V B A.
  destruct (takes_routing_keys_binding r [] K) as [exchange Bd].
  pose proof (run_asserted E r w queueReply V B A) as S.
  rewrite Bd in S. exact S.
Qed.

Lemma no_routing_key_no_bind_witness :
  fst (run (Sample.env Sample.broker)
         (IndividualExchangeSubscriberInstance Sample.events (Some "audit")
            None) empty_world) =
    Resolved {| BrokerChannel.connectionSetting := None;
                BrokerChannel.brokerChannel := Some Sample.events;
                BrokerChannel.name := Some "audit";
                BrokerChannel.isDurable := true |} /\
  trace (snd (run (Sample.env Sample.broker)
                (IndividualExchangeSubscriberInstance Sample.events
                   (Some "audit") None) empty_world)) =
    [CallBuild None (Some Sample.events) (Some "audit");
     CallAssertQueue (Some "audit")
       {| durable := true; exclusive := false; autoDelete := false |}].
Proof.
  exact
    (no_routing_key_no_bind (Sample.env Sample.broker)
       (IndividualExchangeSubscriberInstance Sample.events (Some "audit") None)
       empty_world
       {| queue := "audit"; messageCount := 0; consumerCount := 0 |}
       eq_refl eq_refl eq_refl eq_refl).
Defined.

(** * Further properties of the consumer *)

(** X12.  [consume] on a queue a factory has resolved registers the
    consumer under the name the broker answered the declaration with, for
    the temporary factories too, whose request carried the empty name.
    The registration is one call; the promise resolves when the transport
    accepts it and is rejected with the transport's own error, as it
    came, when it does not.  The listener is not called. *)
Theorem consume_registers_under_the_broker_name
    (E : Env) (r : Recipe) (w : World) (q : Queue.t)
    (messageListener : MessageListener) (ack : Message -> M unit)
    (options : option ConsumeOptions) :
  fst (run E r w) = Resolved q ->
  exists queueReply,
    assert_outcome E r w = Fulfilled queueReply /\
    let w' := snd (run E r w) in
    let registration := Queue.consume E q messageListener ack options in
    issues registration w' [CallConsume (Some (queue queueReply)) options] /\
    emitted (snd (registration w')) = emitted w' /\
    fst (registration w') =
      match consume_reply (transport E) (trace w') (Some (queue queueReply))
              options with
      | Fulfilled _ => Resolved tt
      | Thrown e => Rejected e
      end.
Proof.
  intros R.
  destruct (run_resolved E r w q R) as (queueReply & _ & _ & A & ->).
  exists queueReply. split; [exact A|].
  cbv zeta. unfold Queue.consume, Channel.consume, bind, history,
    record_call, ret, issues. simpl.
  destruct (consume_reply _ _ _ _); repeat split.
Qed.

Lemma consume_registers_under_the_broker_name_witness :
  exists queueReply,
    assert_outcome (Sample.env Sample.broker)
      (ExchangeTemporarySubscriberInstance Sample.events) empty_world =
      Fulfilled queueReply /\
    queue queueReply = "amq.gen-1" /\
    BrokerChannel.name
      (constructed (Sample.env Sample.broker)
         (ExchangeTemporarySubscriberInstance Sample.events)) =
      Some EmptyString.
Proof.
  destruct
    (consume_registers_under_the_broker_name (Sample.env Sample.broker)
       (ExchangeTemporarySubscriberInstance Sample.events) empty_world _
       (Sample.listener 0) (fun m => Channel.ack m None) None eq_refl)
    as (queueReply & A & _).
  exists queueReply. split; [exact A|].
  split; [now injection A as <-| reflexivity].
Defined.

(** X13.  With a listener whose [setCurrentMessage] returns normally, the
    dispatch of any run of deliveries ends normally, whatever
    [handleMessage] does on each of them: no exception of [handleMessage]
    reaches the transport. *)
Theorem dispatch_survives_handleMessage
    (E : Env) (this : Queue.t) (messageListener : MessageListener)
    (ack : Message -> M unit) :
  setCurrentMessage_returns messageListener ->
  forall deliveries w,
    fst (Channel.deliver (Queue.onMessage E this messageListener ack)
           deliveries w) = Fulfilled tt.
Proof.
  intros S deliveries.
  induction deliveries as [|msg rest IH]; intros w; [reflexivity|].
  simpl. unfold bind at 1. unfold Queue.onMessage at 1. unfold bind.
  pose proof (S msg w) as Sm.
  destruct (setCurrentMessage messageListener msg w) as [s w1].
  simpl in Sm. subst s.
  destruct (handleMessage messageListener msg ack w1) as [[v|e] w2];
    simpl; apply IH.
Qed.

Lemma dispatch_survives_handleMessage_witness :
  fst (Channel.deliver
         (Queue.onMessage (Sample.env Sample.broker)
            (Queue.new (Sample.env Sample.broker) (Some Sample.setting) None
               (Some "orders"))
            (Sample.listener 2) (fun m => Channel.ack m None))
         [Sample.delivery 1; Sample.delivery 2; Sample.delivery 2;
          Sample.delivery 3]
         empty_world) = Fulfilled tt.
Proof.
  apply dispatch_survives_handleMessage.
  intros msg w. reflexivity.
Defined.

(** X14.  With a listener that emits nothing itself, the events on the
    queue after the dispatch of a run of deliveries are the ones there
    before, followed by consumer-error events only, at most one per
    delivery. *)
Theorem only_consumer_errors_are_emitted
    (E : Env) (this : Queue.t) (messageListener : MessageListener)
    (ack : Message -> M unit) :
  emits_nothing messageListener ack ->
  forall deliveries w,
    exists errors,
      emitted (snd (Channel.deliver
                      (Queue.onMessage E this messageListener ack)
                      deliveries w)) =
        (emitted w ++
         map (fun e => (MESSAGE_CONSUMER_ERROR_EVENT_NAME (constant E), e))
           errors)%list /\
      length errors <= length deliveries.
Proof.
  intros Q deliveries.
  induction deliveries as [|msg rest IH]; intros w.
  - exists []. simpl. split; [now rewrite app_nil_r | lia].
  - simpl. unfold bind at 1. unfold Queue.onMessage at 1. unfold bind.
    destruct (Q msg w) as [Qs _].
    destruct (setCurrentMessage messageListener msg w) as [[u|e] w1];
      simpl in Qs.
    + destruct (Q msg w1) as [_ Qh].
      destruct (handleMessage messageListener msg ack w1) as [[v|e] w2];
        simpl in Qh.
      * destruct (IH w2) as (errors & He & Hl).
        exists errors. simpl. rewrite He, Qh, Qs. split; [reflexivity | lia].
      * destruct (IH (add_event w2
                        (MESSAGE_CONSUMER_ERROR_EVENT_NAME (constant E)) e))
          as (errors & He & Hl).
        exists (e :: errors). simpl.
        unfold BrokerChannel.emit, ret. simpl.
        unfold add_event in He. rewrite He. simpl.
        rewrite Qh, Qs, <- app_assoc. split; [reflexivity | lia].
    + exists []. simpl. rewrite Qs. split; [now rewrite app_nil_r | lia].
Qed.

Lemma only_consumer_errors_are_emitted_witness :
  exists errors,
    emitted (snd (Channel.deliver
                    (Queue.onMessage (Sample.env Sample.broker)
                       (Queue.new (Sample.env Sample.broker)
                          (Some Sample.setting) None (Some "orders"))
                       (Sample.listener 2) (fun m => Channel.ack m None))
                    [Sample.delivery 1; Sample.delivery 2; Sample.delivery 3]
                    empty_world)) =
      map (fun e => ("MessageConsumerError", e)) errors /\
    length errors <= 3.
Proof.
  apply (only_consumer_errors_are_emitted (Sample.env Sample.broker)
           (Queue.new (Sample.env Sample.broker) (Some Sample.setting) None
              (Some "orders"))
           (Sample.listener 2) (fun m => Channel.ack m None)).
  intros msg w. split; [reflexivity|].
  simpl. destruct (N.eqb (deliveryTag msg) 2); reflexivity.
Defined.
